(** * Bandit analysis core: blacklist matcher, B113 and B507 detectors, exit status

    A shallow embedding of
      - [bandit/core/blacklisting.py]   ([report_issue], [blacklist]),
      - [bandit/plugins/request_without_timeout.py]      (B113),
      - [bandit/plugins/ssh_no_host_key_verification.py] (B507),
      - the last statement of [main] in [bandit/cli/main.py],
    together with the properties stated about them.

    Python values are dynamically typed; the fragment that reaches the code
    above is the type [pyval].  Python dictionaries are [gmap]s with string
    keys.  Code that may raise lives in the error monad [result]. *)

From Stdlib Require Import Ascii String.
From stdpp Require Import base option list gmap strings.

(** ** Python values and exceptions *)

Inductive pyval : Type :=
  | PyNone
  | PyBool (b : bool)
  | PyInt (z : Z)
  | PyStr (s : string).

#[global] Instance pyval_eq_dec : EqDecision pyval.
Proof. solve_decision. Defined.

(** The exceptions the embedded code can raise. *)
Inductive exn : Type :=
  | KeyError (key : string)
  | IndexError
  | TypeError
  | AttributeError.

Inductive result (A : Type) : Type :=
  | Ok (a : A)
  | Raise (e : exn).
Arguments Ok {A} a.
Arguments Raise {A} e.

#[global] Instance result_ret : MRet result := fun A a => Ok a.
#[global] Instance result_bind : MBind result := fun A B f m =>
  match m with
  | Ok a => f a
  | Raise e => Raise e
  end.

(** [d[key]] on a dictionary. *)
Definition getitem {V : Type} (d : gmap string V) (key : string) : result V :=
  match d !! key with
  | Some v => Ok v
  | None => Raise (KeyError key)
  end.

(** [d.get(key, default)] on a dictionary. *)
Definition dict_get {V : Type} (d : gmap string V) (key : string) (dflt : V) : V :=
  default dflt (d !! key).

(** [l[0]] on a list. *)
Definition first_item {A : Type} (l : list A) : result A :=
  match l with
  | x :: _ => Ok x
  | [] => Raise IndexError
  end.

(** ** Strings *)

(** [sub in s] on Python strings: [sub] occurs somewhere in [s]. *)
Fixpoint str_contains (sub s : string) : bool :=
  String.prefix sub s ||
  match s with
  | EmptyString => false
  | String _ rest => str_contains sub rest
  end.

(** [s.startswith(p)]. *)
Definition startswith (s p : string) : bool := String.prefix p s.

(** [s.replace(old, new)] for a non-empty [old]: the occurrences of [old] are
    replaced from left to right, without overlap.  [skip] counts the
    characters of a replaced occurrence that are still to be dropped. *)
Fixpoint replace_from (old new : string) (skip : nat) (s : string) : string :=
  match s with
  | EmptyString => EmptyString
  | String c rest =>
      match skip with
      | S k => replace_from old new k rest
      | O =>
          if String.prefix old s
          then new +:+ replace_from old new (String.length old - 1) rest
          else String c (replace_from old new 0 rest)
      end
  end.

Definition str_replace (old new s : string) : string := replace_from old new 0 s.

(** ** [fnmatch.fnmatch] of the Python standard library

    On POSIX [os.path.normcase] is the identity, so [fnmatch.fnmatch] is
    [fnmatchcase]: the pattern is translated item by item ([*], [?],
    [[seq]], [[!seq]], any other character for itself) and the whole name
    has to match. *)

Inductive glob_item : Type :=
  | GStar
  | GAny
  | GSet (negated : bool) (body : string)
  | GChar (c : ascii).

Definition ascii_leb (a b : ascii) : bool := Nat.leb (nat_of_ascii a) (nat_of_ascii b).

(** Membership in the body of a character class: [lo-hi] is a range, any
    other character stands for itself. *)
Fixpoint set_member (c : ascii) (body : string) : bool :=
  match body with
  | EmptyString => false
  | String lo (String "-" (String hi rest)) =>
      (ascii_leb lo c && ascii_leb c hi) || set_member c rest
  | String x rest => Ascii.eqb x c || set_member c rest
  end.

(** The text up to the first "]" and the number of characters read,
    the "]" included. *)
Fixpoint close_bracket (s : string) : option (string * nat) :=
  match s with
  | EmptyString => None
  | String c rest =>
      if Ascii.eqb c "]" then Some (EmptyString, 1)
      else match close_bracket rest with
           | Some (body, n) => Some (String c body, S n)
           | None => None
           end
  end.

(** What follows a "[": an optional "!", an optional "]" that belongs to the
    class, then everything up to the closing "]". *)
Definition bracket (s : string) : option (bool * string * nat) :=
  let '(neg, s1, n1) :=
    match s with
    | String "!" r => (true, r, 1)
    | _ => (false, s, 0)
    end in
  match s1 with
  | String "]" r =>
      match close_bracket r with
      | Some (body, n) => Some (neg, String "]" body, n1 + 1 + n)
      | None => None
      end
  | _ =>
      match close_bracket s1 with
      | Some (body, n) => Some (neg, body, n1 + n)
      | None => None
      end
  end.

Fixpoint translate_from (skip : nat) (pat : string) : list glob_item :=
  match pat with
  | EmptyString => []
  | String c rest =>
      match skip with
      | S k => translate_from k rest
      | O =>
          if Ascii.eqb c "*" then GStar :: translate_from 0 rest
          else if Ascii.eqb c "?" then GAny :: translate_from 0 rest
          else if Ascii.eqb c "[" then
            match bracket rest with
            | Some (neg, body, n) => GSet neg body :: translate_from n rest
            | None => GChar c :: translate_from 0 rest
            end
          else GChar c :: translate_from 0 rest
      end
  end.

Definition translate (pat : string) : list glob_item := translate_from 0 pat.

Fixpoint glob_match (items : list glob_item) (s : string) : bool :=
  match items with
  | [] => match s with EmptyString => true | _ => false end
  | GStar :: items' =>
      (fix star (s : string) : bool :=
         glob_match items' s ||
         match s with
         | EmptyString => false
         | String _ s' => star s'
         end) s
  | GAny :: items' =>
      match s with
      | String _ s' => glob_match items' s'
      | EmptyString => false
      end
  | GSet neg body :: items' =>
      match s with
      | String c s' => xorb neg (set_member c body) && glob_match items' s'
      | EmptyString => false
      end
  | GChar c :: items' =>
      match s with
      | String d s' => Ascii.eqb c d && glob_match items' s'
      | EmptyString => false
      end
  end.

Definition fnmatch (name pat : string) : bool := glob_match (translate pat) name.

(** ** Syntax nodes, issues and the context facade *)

(** The expressions the blacklist matcher tells apart: a [Name], a string
    literal [Str], and everything else. *)
Inductive expr : Type :=
  | Name (id : string)
  | Str (s : string)
  | OtherExpr.

(** An imported name: [import name as asname]. *)
Record alias : Type := mkAlias {
  alias_name : string;
  asname : option string
}.

Inductive Node : Type :=
  | Call (func : expr) (args : list expr)
  | Import (names : list alias)
  | ImportFrom (module : option string) (names : list alias)
  | OtherNode (class_name : string).

(** [node.__class__.__name__] *)
Definition node_class_name (n : Node) : string :=
  match n with
  | Call _ _ => "Call"
  | Import _ => "Import"
  | ImportFrom _ _ => "ImportFrom"
  | OtherNode cn => cn
  end.

(** [utils.is_instance(e, "Name") and e.id == id] *)
Definition is_name (e : expr) (id : string) : bool :=
  match e with
  | Name i => String.eqb i id
  | _ => false
  end.

(** Modelled from the spec: the constants [bandit.LOW], [bandit.MEDIUM] and
    [bandit.HIGH] are not in src/.  Severity and confidence range over LOW,
    MEDIUM and HIGH; [report_issue] passes them as the strings below. *)
Definition LOW : pyval := PyStr "LOW".
Definition MEDIUM : pyval := PyStr "MEDIUM".
Definition HIGH : pyval := PyStr "HIGH".

(** An [Issue] as its constructor is called: [severity], [confidence] and
    [text] are given at every call site; an argument left to the
    constructor's default is [None]. *)
Record Issue : Type := mkIssue {
  severity : pyval;
  confidence : pyval;
  cwe : option pyval;
  text : string;
  ident : option string;
  lineno : option pyval;
  test_id : option pyval
}.

#[global] Instance Issue_eq_dec : EqDecision Issue.
Proof. solve_decision. Defined.

(** The context facade.  Its class is not in src/; a context is the collection
    of the answers the facade gives for the current node: the node itself, the
    resolved names of a call, the resolved positional arguments and keyword
    arguments, and its two queries that take a name. *)
Record Context : Type := mkContext {
  node : Node;
  call_function_name_qual : string;
  call_function_name : string;
  call_args : list pyval;
  call_keywords : gmap string pyval;
  is_module_imported_like : string -> bool;
  get_lineno_for_call_arg : string -> pyval
}.

(** [a == b] on Python values: booleans compare as the integers 0 and 1. *)
Definition py_eq (a b : pyval) : bool :=
  match a, b with
  | PyNone, PyNone => true
  | PyStr s, PyStr t => String.eqb s t
  | PyInt x, PyInt y => Z.eqb x y
  | PyBool x, PyBool y => Bool.eqb x y
  | PyBool x, PyInt y | PyInt y, PyBool x => Z.eqb (if x then 1 else 0) y
  | _, _ => false
  end.

(** Modelled from the spec: [Context.call_args_count] is not in src/; it is
    the number of positional arguments of the call. *)
Definition call_args_count (ctx : Context) : nat := length (call_args ctx).

(** Modelled from the spec: [Context.check_call_arg_value] is not in src/.
    It returns the value bound to [argument_name] if present, else [None];
    if an expected value is given, it returns a boolean match instead.  A
    call site binds names by keyword only. *)
Definition check_call_arg_value (ctx : Context) (argument_name : string)
    (expected : option pyval) : pyval :=
  match call_keywords ctx !! argument_name with
  | None => PyNone
  | Some v =>
      match expected with
      | None => v
      | Some e => PyBool (py_eq v e)
      end
  end.

(** Truth value of a Python value in a condition. *)
Definition truthy (v : pyval) : bool :=
  match v with
  | PyNone => false
  | PyBool b => b
  | PyInt z => negb (Z.eqb z 0)
  | PyStr s => negb (String.eqb s "")
  end.

(** ** The command line: [bandit/cli/main.py] *)

Module Cli.

(** *** Logging, exits and exceptions *)

Inductive log_level : Type := DEBUG | INFO | WARNING | ERROR.

(** An [argparse.FileType('w')] object: [sys.stdout] or a file opened for
    writing. *)
Inductive out_file : Type :=
  | Stdout
  | OpenFile (name : string).

#[global] Instance out_file_eq_dec : EqDecision out_file.
Proof. solve_decision. Defined.

(** The values an attribute of [args] holds: a scalar, a list of strings or
    a list of output files. *)
Inductive optval : Type :=
  | OVal (v : pyval)
  | OStrs (l : list string)
  | OFiles (l : list out_file).

#[global] Instance optval_eq_dec : EqDecision optval.
Proof. solve_decision. Defined.

Definition ONone : optval := OVal PyNone.

(** Truth value of an attribute in a condition. *)
Definition truth (v : optval) : bool :=
  match v with
  | OVal v => truthy v
  | OStrs l => negb (bool_decide (l = []))
  | OFiles l => negb (bool_decide (l = []))
  end.

(** A profile: a dictionary of sets of test ids. *)
Abbreviation profile := (gmap string (gset string)).

Inductive cli_exn : Type :=
  | SystemExit (code : Z)
  | ProfileNotFound (config_path : optval) (profile_name : optval)
  | ValueError (text : string)
  | PyError (e : exn).

(** An argument of a logging call. *)
Inductive logarg : Type :=
  | LStr (s : string)
  | LVal (v : optval)
  | LProfile (p : profile)
  | LExn (e : cli_exn).

(** One call [LOG.level(msg, *args)]. *)
Record log_record : Type := mkLog {
  log_lvl : log_level;
  log_msg : logarg;
  log_args : list logarg
}.

Inductive outcome (A : Type) : Type :=
  | Return (a : A)
  | Raised (e : cli_exn).
Arguments Return {A} a.
Arguments Raised {A} e.

(** A computation of [main.py]: the log records it emits, in order, and how
    it ends. *)
Record cli (A : Type) : Type := mkCli {
  logged : list log_record;
  ending : outcome A
}.
Arguments mkCli {A} logged ending.
Arguments logged {A} c.
Arguments ending {A} c.

#[global] Instance cli_ret : MRet cli := fun A a => mkCli [] (Return a).
#[global] Instance cli_bind : MBind cli := fun A B f m =>
  match ending m with
  | Return a => mkCli (logged m ++ logged (f a)) (ending (f a))
  | Raised e => mkCli (logged m) (Raised e)
  end.

Definition log (lvl : log_level) (msg : string) (args : list logarg) : cli unit :=
  mkCli [mkLog lvl (LStr msg) args] (Return tt).

(** [LOG.level(e)] for an exception [e]. *)
Definition log_exn (lvl : log_level) (e : cli_exn) : cli unit :=
  mkCli [mkLog lvl (LExn e) []] (Return tt).

Definition raise {A : Type} (e : cli_exn) : cli A := mkCli [] (Raised e).

(** [sys.exit(code)] *)
Definition sys_exit {A : Type} (code : Z) : cli A := raise (SystemExit code).

(** [try: body except (ProfileNotFound, ValueError) as e: handler(e)] *)
Definition try_profile_errors {A : Type} (body : cli A) (handler : cli_exn -> cli A)
    : cli A :=
  match ending body with
  | Raised (ProfileNotFound _ _ as e) | Raised (ValueError _ as e) =>
      mkCli (logged body ++ logged (handler e)) (ending (handler e))
  | _ => body
  end.

(** *** Strings and paths *)

(** [sep.join(l)] *)
Fixpoint str_join (sep : string) (l : list string) : string :=
  match l with
  | [] => ""
  | [s] => s
  | s :: rest => s +:+ sep +:+ str_join sep rest
  end.

(** [s.split(sep)] for a separator of one character. *)
Fixpoint str_split (sep : ascii) (s : string) : list string :=
  match s with
  | EmptyString => [""]
  | String c rest =>
      if Ascii.eqb c sep then "" :: str_split sep rest
      else match str_split sep rest with
           | head :: tail => String c head :: tail
           | [] => [String c ""]
           end
  end.

(** [s.endswith("/")] *)
Fixpoint ends_with_slash (s : string) : bool :=
  match s with
  | EmptyString => false
  | String c EmptyString => Ascii.eqb c "/"
  | String _ rest => ends_with_slash rest
  end.

(** [os.path.join(a, b)] on POSIX. *)
Definition os_path_join (a b : string) : string :=
  if String.prefix "/" b then b
  else if String.eqb a "" || ends_with_slash a then a +:+ b
  else a +:+ "/" +:+ b.

(** *** [_log_option_source] *)

Definition _log_option_source (arg_val ini_val : optval) (option_name : string)
    : cli optval :=
  if truth arg_val then
    log INFO "Using command line arg for %s" [LStr option_name];;
    mret arg_val
  else if truth ini_val then
    log INFO "Using ini file for %s" [LStr option_name];;
    mret ini_val
  else mret ONone.

(** *** The parsed command line *)

(** The attributes of [args] that [main] reads after [parse_args]. *)
Record Args : Type := mkArgs {
  targets : optval;
  recursive : optval;
  agg_type : optval;
  context_lines : optval;
  config_file : optval;
  profile_name : optval;
  tests : optval;
  skips : optval;
  severity : optval;
  confidence : optval;
  output_format : optval;
  msg_template : optval;
  output_file : optval;
  verbose : optval;
  debug : optval;
  quiet : optval;
  ignore_nosec : optval;
  excluded_paths : optval;
  baseline : optval;
  ini_path : optval;
  exit_zero : optval
}.

(** The answers of [config.get_option] to the three names [_get_profile]
    asks for; the class [BanditConfig] is not in src/. *)
Record BanditConfig : Type := mkConfig {
  option_profiles : option (gmap string profile);
  option_tests : option (list string);
  option_skips : option (list string)
}.

(** [ini_options.get(key)] *)
Definition ini_get (ini_options : gmap string string) (key : string) : optval :=
  match ini_options !! key with
  | Some s => OVal (PyStr s)
  | None => ONone
  end.

(** [x or "None"] for a string [x]. *)
Definition or_None (x : string) : string :=
  if String.eqb x "" then "None" else x.

(** [v.split(',') if v else []] *)
Definition split_ids (v : optval) : cli (list string) :=
  if truth v then
    match v with
    | OVal (PyStr s) => mret (str_split "," s)
    | _ => raise (PyError AttributeError)
    end
  else mret [].

(** [p[key]] on a profile. *)
Definition profile_item (p : profile) (key : string) : cli (gset string) :=
  match p !! key with
  | Some s => mret s
  | None => raise (PyError (KeyError key))
  end.

Section Main.

(** [os.walk(t)]: the triples (directory, sub-directories, file names)
    below [t]. *)
Variable os_walk : string -> list (string * list string * list string).

(** [utils.parse_ini_file]; the function is not in src/. *)
Variable parse_ini_file : optval -> cli (option (gmap string string)).

(** [str(x)] on a list held by [args]. *)
Variable py_str : optval -> string.

(** The order in which a set of test ids is iterated. *)
Variable set_iter : gset string -> list string.

(** [extension_mgr.validate_profile]; the extension manager is not in src/. *)
Variable validate_profile : profile -> cli unit.

(** *** [_get_options_from_ini] *)

(** The [.bandit] paths collected below one target. *)
Definition found_below (t : string) : list string :=
  flat_map (fun '(root, _, filenames) =>
              map (os_path_join root)
                  (List.filter (fun name => fnmatch name ".bandit") filenames))
           (os_walk t).

Definition _get_options_from_ini (ini_path : optval) (target : list string)
    : cli (option (gmap string string)) :=
  ini_file ←
    (if truth ini_path then mret ini_path
     else
       let bandit_files := flat_map found_below target in
       if Nat.ltb 1 (length bandit_files) then
         log ERROR
           ("Multiple .bandit files found - scan separately or "
            +:+ "choose one with --ini" +:+ String "010" (String "009" "%s"))
           [LStr (str_join ", " bandit_files)];;
         sys_exit 2
       else
         match bandit_files with
         | [f] =>
             log INFO "Found project level .bandit file: %s" [LStr f];;
             mret (OVal (PyStr f))
         | _ => mret ONone
         end);
  if truth ini_file then parse_ini_file ini_file else mret None.

(** *** [_get_profile] and [_log_info] *)

Definition _get_profile (config : BanditConfig) (profile_name config_path : optval)
    : cli profile :=
  if truth profile_name then
    let profiles := default ∅ (option_profiles config) in
    match profile_name with
    | OVal v =>
        match (match v with PyStr s => profiles !! s | _ => None end) with
        | None => raise (ProfileNotFound config_path profile_name)
        | Some p =>
            log DEBUG "read in legacy profile '%s': %s"
                [LVal profile_name; LProfile p];;
            mret p
        end
    | _ => raise (PyError TypeError)
    end
  else
    mret (<["exclude" := list_to_set (default [] (option_skips config))]>
            (<["include" := list_to_set (default [] (option_tests config))]> ∅)).

Definition _log_info (args : Args) (p : profile) : cli unit :=
  include ← profile_item p "include";
  let inc := or_None (str_join "," (set_iter include)) in
  exclude ← profile_item p "exclude";
  let exc := or_None (str_join "," (set_iter exclude)) in
  log INFO "profile include tests: %s" [LStr inc];;
  log INFO "profile exclude tests: %s" [LStr exc];;
  log INFO "cli include tests: %s" [LVal (tests args)];;
  log INFO "cli exclude tests: %s" [LVal (skips args)].

(** The [try] statement of [main] that builds the profile. *)
Definition main_profile (b_conf : BanditConfig) (args : Args) : cli profile :=
  try_profile_errors
    (p ← _get_profile b_conf (profile_name args) (config_file args);
     _log_info args p;;
     include ← profile_item p "include";
     added ← split_ids (tests args);
     let p := <["include" := include ∪ list_to_set added]> p in
     exclude ← profile_item p "exclude";
     removed ← split_ids (skips args);
     let p := <["exclude" := exclude ∪ list_to_set removed]> p in
     validate_profile p;;
     mret p)
    (fun e => log_exn ERROR e;; sys_exit 2).

(** *** Output formats and output files *)

(** The statements of [main] between [parse_args] and the construction of
    the configuration: they read and assign [args.output_format] and
    [args.output_file] and read [args.msg_template]; [default_format] is
    "screen" on a terminal and "txt" otherwise. *)
Definition output_setup (default_format : string)
    (output_format : option (list string)) (output_file : option (list out_file))
    (msg_template : option string) : cli (list string * list out_file) :=
  let output_format :=
    match output_format with
    | None | Some [] => [default_format]
    | Some l => l
    end in
  let output_file :=
    match output_file with
    | None | Some [] => [Stdout]
    | Some l => l
    end in
  let '(output_format, output_file) :=
    if existsb (fun f => String.eqb f "screen") output_format
       && forallb (fun o => negb (bool_decide (o = Stdout))) output_file
    then (List.filter (fun f => negb (String.eqb f "screen")) output_format
            ++ ["screen"],
          output_file ++ [Stdout])
    else (output_format, output_file) in
  if negb (Nat.eqb (length output_format) (length output_file)) then
    log WARNING
      ("You must specify an output for each format. formats: "
       +:+ py_str (OStrs output_format) +:+ " outputs: "
       +:+ py_str (OFiles output_file)) [];;
    sys_exit 2
  else if negb (bool_decide ("custom" ∈ output_format))
          && bool_decide (is_Some msg_template)
  then sys_exit 2
  else mret (output_format, output_file).

(** *** Options from the [.bandit] file *)

(** [if ini_options:] *)
Definition ini_given (ini_options : option (gmap string string)) : bool :=
  match ini_options with
  | Some d => negb (bool_decide (d = ∅))
  | None => false
  end.

(** [ini_targets], split at the commas when it is not empty. *)
Definition ini_targets_of (ini_options : gmap string string) : optval :=
  let ini_targets := ini_get ini_options "targets" in
  if truth ini_targets then
    match ini_targets with
    | OVal (PyStr s) => OStrs (str_split "," s)
    | _ => ini_targets
    end
  else ini_targets.

(** The [if ini_options:] statement of [main]. *)
Definition merge_ini (args : Args) (ini_options : option (gmap string string))
    : cli Args :=
  if ini_given ini_options then
    let ini := default ∅ ini_options in
    excluded_paths' ← _log_option_source (excluded_paths args) (ini_get ini "exclude")
                        "excluded paths";
    skips' ← _log_option_source (skips args) (ini_get ini "skips") "skipped tests";
    tests' ← _log_option_source (tests args) (ini_get ini "tests") "selected tests";
    targets' ← _log_option_source (targets args) (ini_targets_of ini) "selected targets";
    recursive' ← _log_option_source (recursive args) (ini_get ini "recursive")
                   "recursive scan";
    agg_type' ← _log_option_source (agg_type args) (ini_get ini "aggregate")
                  "aggregate output type";
    context_lines' ← _log_option_source (context_lines args) (ini_get ini "number")
                       "max code lines output for issue";
    profile' ← _log_option_source (profile_name args) (ini_get ini "profile") "profile";
    severity' ← _log_option_source (severity args) (ini_get ini "level") "severity level";
    confidence' ← _log_option_source (confidence args) (ini_get ini "confidence")
                    "confidence level";
    output_format' ← _log_option_source (output_format args) (ini_get ini "format")
                       "output format";
    msg_template' ← _log_option_source (msg_template args) (ini_get ini "msg-template")
                      "output message template";
    output_file' ← _log_option_source (output_file args) (ini_get ini "output")
                     "output file";
    verbose' ← _log_option_source (verbose args) (ini_get ini "verbose")
                 "output extra information";
    debug' ← _log_option_source (debug args) (ini_get ini "debug") "debug mode";
    quiet' ← _log_option_source (quiet args) (ini_get ini "quiet") "silent mode";
    ignore_nosec' ← _log_option_source (ignore_nosec args) (ini_get ini "ignore-nosec")
                      "do not skip lines with # nosec";
    baseline' ← _log_option_source (baseline args) (ini_get ini "baseline")
                  "path of a baseline report";
    mret {| targets := targets'; recursive := recursive'; agg_type := agg_type';
            context_lines := context_lines'; config_file := config_file args;
            profile_name := profile'; tests := tests'; skips := skips';
            severity := severity'; confidence := confidence';
            output_format := output_format'; msg_template := msg_template';
            output_file := output_file'; verbose := verbose'; debug := debug';
            quiet := quiet'; ignore_nosec := ignore_nosec';
            excluded_paths := excluded_paths'; baseline := baseline';
            ini_path := ini_path args; exit_zero := exit_zero args |}
  else mret args.

(** [if not args.targets:] after the options are merged. *)
Definition require_targets (args : Args) : cli unit :=
  if negb (truth (targets args)) then
    log ERROR "No targets found in CLI or ini files, exiting." [];;
    sys_exit 2
  else mret tt.

End Main.

(** *** Values for the statements below *)

(** The value [_log_option_source] returns. *)
Definition option_source (arg_val ini_val : optval) : optval :=
  if truth arg_val then arg_val
  else if truth ini_val then ini_val
  else ONone.

(** The attributes [merge_ini] assigns. *)
Definition merged_attributes : list (Args -> optval) :=
  [excluded_paths; skips; tests; targets; recursive; agg_type; context_lines;
   profile_name; severity; confidence; output_format; msg_template; output_file;
   verbose; debug; quiet; ignore_nosec; baseline].

(** [args] for the command line [bandit], with nothing else on it. *)
Definition bare_args : Args :=
  {| targets := OStrs []; recursive := OVal (PyBool false);
     agg_type := OVal (PyStr "file"); context_lines := OVal (PyInt 3);
     config_file := ONone; profile_name := ONone; tests := ONone; skips := ONone;
     severity := OVal (PyInt 1); confidence := OVal (PyInt 1);
     output_format := OStrs ["txt"]; msg_template := ONone;
     output_file := OFiles [Stdout]; verbose := OVal (PyBool false);
     debug := OVal (PyBool false); quiet := OVal (PyBool false);
     ignore_nosec := OVal (PyBool false); excluded_paths := OVal (PyStr ".svn,CVS");
     baseline := ONone; ini_path := ONone; exit_zero := OVal (PyBool false) |}.

(** [args] for [bandit -t B101,B102 -p name]. *)
Definition args_tests_profile (name : optval) : Args :=
  {| targets := OStrs ["src"]; recursive := OVal (PyBool false);
     agg_type := OVal (PyStr "file"); context_lines := OVal (PyInt 3);
     config_file := OVal (PyStr "bandit.yaml"); profile_name := name;
     tests := OVal (PyStr "B101,B102"); skips := ONone;
     severity := OVal (PyInt 1); confidence := OVal (PyInt 1);
     output_format := OStrs ["txt"]; msg_template := ONone;
     output_file := OFiles [Stdout]; verbose := OVal (PyBool false);
     debug := OVal (PyBool false); quiet := OVal (PyBool false);
     ignore_nosec := OVal (PyBool false); excluded_paths := OVal (PyStr ".svn,CVS");
     baseline := ONone; ini_path := ONone; exit_zero := OVal (PyBool false) |}.

(** A configuration with the tests B301 and B101, the skip B102 and one
    legacy profile, which has no ["include"] entry. *)
Definition sample_config : BanditConfig :=
  {| option_profiles := Some {[ "legacy" := {[ "exclude" := {[ "B102" ]} ]} ]};
     option_tests := Some ["B301"; "B101"];
     option_skips := Some ["B102"] |}.

(** A tree with a [.bandit] file in [proj] and files of similar names. *)
Definition sample_walk (t : string) : list (string * list string * list string) :=
  if String.eqb t "proj" then
    [("proj", ["pkg"], [".bandit"; "setup.py"; "x.bandit"]);
     ("proj/pkg", [], [".bandit.bak"; "mod.py"])]
  else [].

(** A parser of [.bandit] files that finds [targets = a,b] in every file. *)
Definition sample_parse (f : optval) : cli (option (gmap string string)) :=
  mret (Some {[ "targets" := "a,b" ]}).

End Cli.

(** ** Blacklist rules *)

(** One blacklist rule (a [check] dictionary).  The entries read by
    subscription, ["qualnames"] and ["message"], are fields; the others,
    read with [get] and a default (["level"], ["cwe"], ["id"]) or not read
    at all, are in [entries]. *)
Record Check : Type := mkCheck {
  qualnames : list string;
  message : string;
  entries : gmap string pyval
}.

Section Bandit.

(** [issue.Cwe.NOTSET]; the constant is not in src/. *)
Variable Cwe_NOTSET : pyval.

(** [cwemap.CWEMAP["B507"]]; the table is not in src/. *)
Variable CWEMAP_B507 : pyval.

(** [b_mgr.results_count(sev_filter, conf_filter)]: the number of results
    that match the severity and confidence filter; the manager is not in
    src/. *)
Variable results_count : pyval -> pyval -> nat.

Definition report_issue (check : Check) (name : string) : Issue :=
  {| severity := dict_get (entries check) "level" MEDIUM;
     confidence := HIGH;
     cwe := Some (dict_get (entries check) "cwe" Cwe_NOTSET);
     text := str_replace "{name}" name (message check);
     ident := Some name;
     lineno := None;
     test_id := Some (dict_get (entries check) "id" (PyStr "LEGACY")) |}.

(** The name a [Call] node is matched under (first half of the [Call]
    branch of [blacklist]). *)
Definition call_name (ctx : Context) (func : expr) (args : list expr) : result pyval :=
  if is_name func "__import__" then
    match args with
    | Str s :: _ => Ok (PyStr s)
    | _ :: _ => Ok (PyStr "UNKNOWN")
    | [] => Ok (PyStr "")
    end
  else
    let name := call_function_name_qual ctx in
    if bool_decide (name ∈ ["importlib.import_module"; "importlib.__import__"]) then
      if Nat.ltb 0 (call_args_count ctx)
      then first_item (call_args ctx)
      else getitem (call_keywords ctx) "name"
    else Ok (PyStr name).

(** [for qn in check["qualnames"]] of the [Call] branch. *)
Fixpoint call_qualnames (check : Check) (name : pyval) (qns : list string)
    : result (option Issue) :=
  match qns with
  | [] => Ok None
  | qn :: qns' =>
      match name with
      | PyNone => call_qualnames check name qns'
      | PyStr s =>
          if fnmatch s qn then Ok (Some (report_issue check s))
          else call_qualnames check name qns'
      | _ => Raise TypeError
      end
  end.

(** [for check in blacklists[node_type]] of the [Call] branch. *)
Fixpoint call_checks (name : pyval) (checks : list Check) : result (option Issue) :=
  match checks with
  | [] => Ok None
  | check :: checks' =>
      r ← call_qualnames check name (qualnames check);
      match r with
      | Some i => Ok (Some i)
      | None => call_checks name checks'
      end
  end.

(** [for qn in check["qualnames"]] of the import branch. *)
Fixpoint import_qualnames (check : Check) (prefix : string) (name : alias)
    (qns : list string) : option Issue :=
  match qns with
  | [] => None
  | qn :: qns' =>
      if startswith (prefix +:+ alias_name name) qn
      then Some (report_issue check (alias_name name))
      else import_qualnames check prefix name qns'
  end.

(** [for name in context.node.names] *)
Fixpoint import_names (check : Check) (prefix : string) (names : list alias)
    : option Issue :=
  match names with
  | [] => None
  | name :: names' =>
      match import_qualnames check prefix name (qualnames check) with
      | Some i => Some i
      | None => import_names check prefix names'
      end
  end.

(** [for check in blacklists[node_type]] of the import branch. *)
Fixpoint import_checks (prefix : string) (names : list alias) (checks : list Check)
    : option Issue :=
  match checks with
  | [] => None
  | check :: checks' =>
      match import_names check prefix names with
      | Some i => Some i
      | None => import_checks prefix names checks'
      end
  end.

(** The prefix of the import branch. *)
Definition import_prefix (n : Node) : string :=
  match n with
  | ImportFrom (Some m) _ => m +:+ "."
  | _ => ""
  end.

Definition blacklist (ctx : Context) (config : gmap string (list Check))
    : result (option Issue) :=
  let blacklists := config in
  let node_type := node_class_name (node ctx) in
  r ← (if String.eqb node_type "Call" then
         match node ctx with
         | Call func args =>
             name ← call_name ctx func args;
             checks ← getitem blacklists node_type;
             call_checks name checks
         | _ => Raise AttributeError
         end
       else Ok None);
  match r with
  | Some i => Ok (Some i)
  | None =>
      if startswith node_type "Import" then
        match node ctx with
        | Import names | ImportFrom _ names =>
            checks ← getitem blacklists node_type;
            Ok (import_checks (import_prefix (node ctx)) names checks)
        | _ =>
            (* an object without [module] and [names] *)
            if String.eqb node_type "ImportFrom" then Raise AttributeError
            else
              checks ← getitem blacklists node_type;
              match checks with
              | [] => Ok None
              | _ :: _ => Raise AttributeError
              end
        end
      else Ok None
  end.

(** ** B113: requests call without timeout *)

Definition http_verbs : list string :=
  ["get"; "options"; "head"; "post"; "put"; "patch"; "delete"].

Definition request_without_timeout (ctx : Context) : option Issue :=
  if str_contains "requests" (call_function_name_qual ctx)
     && bool_decide (call_function_name ctx ∈ http_verbs)
  then
    if bool_decide (check_call_arg_value ctx "timeout" None = PyNone) then
      Some {| severity := MEDIUM; confidence := LOW; cwe := None;
              text := "Requests call without timeout";
              ident := None; lineno := None; test_id := None |}
    else if truthy (check_call_arg_value ctx "timeout" (Some (PyStr "None"))) then
      Some {| severity := MEDIUM; confidence := LOW; cwe := None;
              text := "Requests call with timeout set to None";
              ident := None; lineno := None; test_id := None |}
    else None
  else None.

(** ** B507: missing host key validation *)

(** [context.call_args and context.call_args[0] in [...]] *)
Definition first_arg_in (args : list pyval) (vals : list pyval) : bool :=
  match args with
  | [] => false
  | a :: _ => existsb (py_eq a) vals
  end.

Definition ssh_no_host_key_verification (ctx : Context) : option Issue :=
  if is_module_imported_like ctx "paramiko"
     && String.eqb (call_function_name ctx) "set_missing_host_key_policy"
  then
    if first_arg_in (call_args ctx) [PyStr "AutoAddPolicy"; PyStr "WarningPolicy"] then
      Some {| severity := HIGH; cwe := Some CWEMAP_B507; confidence := MEDIUM;
              text := "Paramiko call with policy set to automatically trust "
                      +:+ "the unknown host key.";
              ident := None;
              lineno := Some (get_lineno_for_call_arg ctx "set_missing_host_key_policy");
              test_id := None |}
    else None
  else None.

(** ** Exit status *)

(** The last statement of [main]: [sys.exit(1)] or [sys.exit(0)]. *)
Definition main_exit_status (sev_level conf_level : pyval) (exit_zero : bool) : Z :=
  if Nat.ltb 0 (results_count sev_level conf_level) && negb exit_zero
  then 1%Z
  else 0%Z.

(** ** Match predicates and sample inputs *)

(** Some pattern of [check] matches the call name [name]. *)
Definition call_matches (name : string) (check : Check) : bool :=
  existsb (fnmatch name) (qualnames check).

(** Some pattern of [check] is a prefix of [prefix + a.name]. *)
Definition import_matches (prefix : string) (check : Check) (a : alias) : bool :=
  existsb (startswith (prefix +:+ alias_name a)) (qualnames check).

(** A pattern without [*], [?] and "[". *)
Fixpoint plain_pattern (pat : string) : bool :=
  match pat with
  | EmptyString => true
  | String c rest =>
      negb (Ascii.eqb c "*") && negb (Ascii.eqb c "?") && negb (Ascii.eqb c "[")
      && plain_pattern rest
  end.

(** A context for the call [qual(args, **kw)] with callee expression [func]. *)
Definition call_context (func : expr) (raw : list expr) (qual last : string)
    (args : list pyval) (kw : gmap string pyval) (imported : string -> bool) : Context :=
  {| node := Call func raw;
     call_function_name_qual := qual;
     call_function_name := last;
     call_args := args;
     call_keywords := kw;
     is_module_imported_like := imported;
     get_lineno_for_call_arg := fun _ => PyInt 1 |}.

(** A context for an import statement. *)
Definition import_context (n : Node) : Context :=
  {| node := n;
     call_function_name_qual := "";
     call_function_name := "";
     call_args := [];
     call_keywords := ∅;
     is_module_imported_like := fun _ => false;
     get_lineno_for_call_arg := fun _ => PyInt 1 |}.

Definition rule (qns : list string) (msg : string) (kv : list (string * pyval)) : Check :=
  {| qualnames := qns; message := msg; entries := list_to_map kv |}.

(** [os.system("ls")] *)
Definition os_system_call : Context :=
  call_context OtherExpr [Str "ls"] "os.system" "system" [PyStr "ls"] ∅ (fun _ => false).

Definition rule_subprocess : Check :=
  rule ["subprocess.*"] "{name} spawns a process" [("id", PyStr "B404")].
Definition rule_os_sys : Check :=
  rule ["posix.*"; "os.sys*"] "Use of {name}: {name} starts a shell"
       [("id", PyStr "B605"); ("level", LOW); ("cwe", PyInt 78)].
Definition rule_os_any : Check :=
  rule ["os.*"] "{name} is in os" [("level", HIGH)].

Definition call_rules : gmap string (list Check) :=
  {[ "Call" := [rule_subprocess; rule_os_sys; rule_os_any] ]}.

(** [from os import system] *)
Definition from_os_import_system : Context :=
  import_context (ImportFrom (Some "os") [mkAlias "system" None]).

(** [import os.path as p] *)
Definition import_os_path_as_p : Context :=
  import_context (Import [mkAlias "os.path" (Some "p")]).

(** [import os.path] *)
Definition import_os_path : Context :=
  import_context (Import [mkAlias "os.path" None]).

Definition rule_import_system : Check :=
  rule ["os.system"] "{name} is blacklisted" [("level", HIGH); ("confidence", LOW)].
Definition rule_import_os : Check :=
  rule ["os.pa"] "{name} imported" [].

Definition import_rules : gmap string (list Check) :=
  {[ "ImportFrom" := [rule_import_system]; "Import" := [rule_import_os] ]}.

(** [importlib.import_module()] *)
Definition import_module_no_arguments : Context :=
  call_context OtherExpr [] "importlib.import_module" "import_module" [] ∅
    (fun _ => false).

(** [requests.get(url)], [requests.get(url, timeout=None)] and
    [requests.get(url, timeout=5)]; [url] is a name, resolved to its
    identifier. *)
Definition requests_get (kw : gmap string pyval) : Context :=
  call_context OtherExpr [Name "url"] "requests.get" "get" [PyStr "url"] kw
    (fun _ => false).

(** [ssh_client.set_missing_host_key_policy(policy)] in a file where
    [is_module_imported_like] answers [imported]. *)
Definition set_policy (policy : pyval) (imported : bool) : Context :=
  call_context OtherExpr [OtherExpr] "ssh_client.set_missing_host_key_policy"
    "set_missing_host_key_policy" [policy] ∅ (fun _ => imported).

(** [ssh_client.set_missing_host_key_policy('AutoAddPolicy')] in a file
    that imports paramiko: the argument is a string literal. *)
Definition policy_as_string_literal : Context :=
  call_context OtherExpr [Str "AutoAddPolicy"] "ssh_client.set_missing_host_key_policy"
    "set_missing_host_key_policy" [PyStr "AutoAddPolicy"] ∅ (fun _ => true).

(** [import json, pickle] *)
Definition import_json_pickle : Context :=
  import_context (Import [mkAlias "json" None; mkAlias "pickle" None]).

Definition rule_pickle : Check := rule ["pickle"] "{name} is unsafe" [].
Definition rule_json : Check := rule ["json"] "{name} noted" [].
Definition rule_fixed_text : Check := rule ["eval"] "Use of eval detected." [].

Definition json_pickle_rules : gmap string (list Check) :=
  {[ "Import" := [rule_pickle; rule_json] ]}.

(** [__import__("pickle")] and [__import__(module)] *)
Definition builtin_import (arg : expr) (resolved : pyval) : Context :=
  call_context (Name "__import__") [arg] "__import__" "__import__" [resolved] ∅
    (fun _ => false).

(** [importlib.import_module(arg)] *)
Definition import_module_of (arg : pyval) : Context :=
  call_context OtherExpr [OtherExpr] "importlib.import_module" "import_module"
    [arg] ∅ (fun _ => false).

(** [importlib.import_module(name="os.system")] *)
Definition import_module_by_keyword : Context :=
  call_context OtherExpr [] "importlib.import_module" "import_module" []
    {[ "name" := PyStr "os.system" ]} (fun _ => false).


(** ** Properties of the string functions *)

Example fnmatch_star : fnmatch "os.system" "os.*" = true.
Proof. reflexivity. Qed.
Example fnmatch_set : fnmatch "pickle.loads" "pickle.load[a-z]" = true.
Proof. reflexivity. Qed.
Example fnmatch_negset : fnmatch "a]" "[!]b]]" = true.
Proof. reflexivity. Qed.
Example fnmatch_open_bracket : fnmatch "a[b" "a[b" = true.
Proof. reflexivity. Qed.
Example replace_twice : str_replace "{name}" "x.y" "{name} and {name}." = "x.y and x.y.".
Proof. reflexivity. Qed.
Example contains_mid : str_contains "requests" "my_requests_util.get" = true.
Proof. reflexivity. Qed.

Lemma glob_star_any (s : string) : glob_match [GStar] s = true.
Proof. induction s as [|c s IH]; [reflexivity|]. simpl in *. exact IH. Qed.

Lemma fnmatch_star_all (s : string) : fnmatch s "*" = true.
Proof. apply glob_star_any. Qed.

Lemma fnmatch_question (s : string) :
  fnmatch s "?" = true <-> String.length s = 1.
Proof.
  unfold fnmatch; simpl. destruct s as [|c [|d s]]; simpl; split; intros H;
    try reflexivity; try discriminate.
Qed.

Lemma translate_plain (pat : string) :
  plain_pattern pat = true ->
  translate pat = map GChar (list_ascii_of_string pat).
Proof.
  unfold translate. induction pat as [|c pat IH]; simpl; [reflexivity|].
  intros H. apply andb_prop in H as [H Hp]. apply andb_prop in H as [H H3].
  apply andb_prop in H as [H1 H2].
  apply negb_true_iff in H1, H2, H3. rewrite H1, H2, H3.
  f_equal. auto.
Qed.

Lemma glob_chars_eq (pat s : string) :
  glob_match (map GChar (list_ascii_of_string pat)) s = true <-> s = pat.
Proof.
  revert s. induction pat as [|c pat IH]; intros [|d s]; simpl;
    try (split; intros; congruence).
  rewrite andb_true_iff, IH. split.
  - intros [Hc ->]. apply Ascii.eqb_eq in Hc. congruence.
  - intros [= -> ->]. split; [apply Ascii.eqb_refl|reflexivity].
Qed.

(** A pattern without metacharacters matches exactly itself. *)
Lemma fnmatch_plain (name pat : string) :
  plain_pattern pat = true -> (fnmatch name pat = true <-> name = pat).
Proof. intros H. unfold fnmatch. rewrite translate_plain by exact H. apply glob_chars_eq. Qed.

Lemma replace_from_skip (old new a s : string) :
  replace_from old new (String.length a) (a +:+ s) = replace_from old new 0 s.
Proof.
  induction a as [|c a IH]; simpl; [|exact IH].
  destruct s; reflexivity.
Qed.

Lemma prefix_append (a s : string) : String.prefix a (a +:+ s) = true.
Proof.
  induction a as [|c a IH]; simpl.
  - destruct s; reflexivity.
  - destruct (ascii_dec c c) as [_|N]; [exact IH|contradiction].
Qed.

(** An occurrence of [old] at the head is replaced, and replacement goes on
    behind it. *)
Lemma str_replace_occurrence (c : ascii) (old new s : string) :
  str_replace (String c old) new (String c old +:+ s) =
  new +:+ str_replace (String c old) new s.
Proof.
  unfold str_replace.
  change (String c old +:+ s) with (String c (old +:+ s)).
  change (replace_from (String c old) new 0 (String c (old +:+ s))) with
    (if String.prefix (String c old) (String c (old +:+ s))
     then new +:+ replace_from (String c old) new
                    (String.length (String c old) - 1) (old +:+ s)
     else String c (replace_from (String c old) new 0 (old +:+ s))).
  change (String c (old +:+ s)) with (String c old +:+ s).
  rewrite prefix_append.
  replace (String.length (String c old) - 1) with (String.length old)
    by (simpl; lia).
  rewrite replace_from_skip. reflexivity.
Qed.

(** A character that does not start an occurrence of [old] is kept. *)
Lemma str_replace_other (c : ascii) (old new s : string) :
  String.prefix old (String c s) = false ->
  str_replace old new (String c s) = String c (str_replace old new s).
Proof.
  intros H. unfold str_replace.
  change (replace_from old new 0 (String c s)) with
    (if String.prefix old (String c s)
     then new +:+ replace_from old new (String.length old - 1) s
     else String c (replace_from old new 0 s)).
  rewrite H. reflexivity.
Qed.

(** ** Properties of the loops of [blacklist] *)

Lemma call_qualnames_str (check : Check) (s : string) (qns : list string) :
  call_qualnames check (PyStr s) qns =
  Ok (if existsb (fnmatch s) qns then Some (report_issue check s) else None).
Proof.
  induction qns as [|qn qns IH]; simpl; [reflexivity|].
  destruct (fnmatch s qn); simpl; [reflexivity|exact IH].
Qed.

Lemma call_checks_str (s : string) (checks : list Check) :
  call_checks (PyStr s) checks =
  Ok ((fun c => report_issue c s) <$> find (call_matches s) checks).
Proof.
  induction checks as [|c checks IH]; simpl; [reflexivity|].
  rewrite call_qualnames_str. unfold call_matches at 1.
  destruct (existsb (fnmatch s) (qualnames c)); simpl; [reflexivity|exact IH].
Qed.

Lemma call_checks_none (checks : list Check) : call_checks PyNone checks = Ok None.
Proof.
  induction checks as [|c checks IH]; simpl; [reflexivity|].
  assert (Hq : forall qns, call_qualnames c PyNone qns = Ok None).
  { induction qns as [|qn qns IHq]; simpl; auto. }
  rewrite Hq. simpl. exact IH.
Qed.

Lemma find_app_first {A : Type} (f : A -> bool) (pre post : list A) (x : A) :
  (forall y, In y pre -> f y = false) -> f x = true ->
  find f (pre ++ x :: post) = Some x.
Proof.
  intros Hpre Hx. induction pre as [|y pre IH]; simpl.
  - rewrite Hx. reflexivity.
  - rewrite (Hpre y) by (left; reflexivity). apply IH.
    intros z Hz. apply Hpre. right. exact Hz.
Qed.

Lemma import_qualnames_spec (check : Check) (prefix : string) (a : alias)
    (qns : list string) :
  import_qualnames check prefix a qns =
  if existsb (startswith (prefix +:+ alias_name a)) qns
  then Some (report_issue check (alias_name a)) else None.
Proof.
  induction qns as [|qn qns IH]; simpl; [reflexivity|].
  destruct (startswith (prefix +:+ alias_name a) qn); simpl; [reflexivity|exact IH].
Qed.

Lemma import_names_spec (check : Check) (prefix : string) (names : list alias) :
  import_names check prefix names =
  (fun a => report_issue check (alias_name a)) <$> find (import_matches prefix check) names.
Proof.
  induction names as [|a names IH]; simpl; [reflexivity|].
  rewrite import_qualnames_spec. unfold import_matches at 1.
  destruct (existsb _ (qualnames check)); simpl; [reflexivity|exact IH].
Qed.

Lemma import_checks_spec (prefix : string) (names : list alias) (checks : list Check) :
  import_checks prefix names checks =
  match find (fun c => existsb (import_matches prefix c) names) checks with
  | Some c => (fun a => report_issue c (alias_name a)) <$> find (import_matches prefix c) names
  | None => None
  end.
Proof.
  induction checks as [|c checks IH]; simpl; [reflexivity|].
  rewrite import_names_spec.
  destruct (existsb (import_matches prefix c) names) eqn:E.
  - apply existsb_exists in E as (a & Ha & Hm).
    destruct (find (import_matches prefix c) names) eqn:F; [reflexivity|].
    apply (find_none _ _ F) in Ha. congruence.
  - destruct (find (import_matches prefix c) names) eqn:F; [|exact IH].
    apply find_some in F as [Ha Hm].
    assert (existsb (import_matches prefix c) names = true)
      by (apply existsb_exists; eauto).
    congruence.
Qed.

(** The [Call] branch, for a name that resolved to a string. *)
Lemma blacklist_call (ctx : Context) (config : gmap string (list Check))
    (func : expr) (args : list expr) (name : string) (checks : list Check) :
  node ctx = Call func args ->
  call_name ctx func args = Ok (PyStr name) ->
  config !! "Call" = Some checks ->
  blacklist ctx config =
  Ok ((fun c => report_issue c name) <$> find (call_matches name) checks).
Proof.
  intros Hn Hname Hcfg. unfold blacklist. rewrite Hn. simpl.
  rewrite Hname. simpl. unfold getitem. rewrite Hcfg. simpl.
  rewrite call_checks_str. simpl.
  destruct (find (call_matches name) checks); reflexivity.
Qed.

(** The import branch. *)
Lemma blacklist_import (ctx : Context) (config : gmap string (list Check))
    (names : list alias) (checks : list Check) :
  (node ctx = Import names \/ exists m, node ctx = ImportFrom m names) ->
  config !! node_class_name (node ctx) = Some checks ->
  blacklist ctx config = Ok (import_checks (import_prefix (node ctx)) names checks).
Proof.
  intros [Hn | [m Hn]] Hcfg; unfold blacklist; rewrite Hn in *; simpl in *;
    unfold getitem; rewrite Hcfg; reflexivity.
Qed.

Lemma blacklist_call_iff (ctx : Context) (config : gmap string (list Check))
    (func : expr) (args : list expr) (name : string) (checks : list Check) :
  node ctx = Call func args ->
  call_name ctx func args = Ok (PyStr name) ->
  config !! "Call" = Some checks ->
  exists r, blacklist ctx config = Ok r /\
    (is_Some r <->
     exists c qn, In c checks /\ In qn (qualnames c) /\ fnmatch name qn = true).
Proof.
  intros Hn Hname Hcfg.
  rewrite (blacklist_call ctx config func args name checks Hn Hname Hcfg).
  eexists; split; [reflexivity|].
  destruct (find (call_matches name) checks) as [c|] eqn:F; simpl; split.
  - intros _. apply find_some in F as [Hin Hm].
    apply existsb_exists in Hm as (qn & Hqn & Hm). eauto.
  - eauto.
  - intros [? [=]].
  - intros (c & qn & Hc & Hqn & Hm). exfalso.
    assert (call_matches name c = true) by (apply existsb_exists; eauto).
    rewrite (find_none _ _ F c Hc) in H. discriminate.
Qed.

Lemma blacklist_import_iff (ctx : Context) (config : gmap string (list Check))
    (names : list alias) (checks : list Check) :
  (node ctx = Import names \/ exists m, node ctx = ImportFrom m names) ->
  config !! node_class_name (node ctx) = Some checks ->
  exists r, blacklist ctx config = Ok r /\
    (is_Some r <->
     exists c a qn, In c checks /\ In a names /\ In qn (qualnames c) /\
       String.prefix qn (import_prefix (node ctx) +:+ alias_name a) = true).
Proof.
  intros Hn Hcfg.
  rewrite (blacklist_import ctx config names checks Hn Hcfg).
  eexists; split; [reflexivity|]. rewrite import_checks_spec.
  set (p := import_prefix (node ctx)).
  destruct (find _ checks) as [c|] eqn:F; split.
  - intros _. apply find_some in F as [Hin Hm].
    apply existsb_exists in Hm as (a & Ha & Hm).
    apply existsb_exists in Hm as (qn & Hqn & Hm). exists c, a, qn. auto.
  - intros _. apply find_some in F as [Hin Hm].
    apply existsb_exists in Hm as (a & Ha & Hm).
    destruct (find (import_matches p c) names) eqn:G; simpl; [eauto|].
    rewrite (find_none _ _ G a Ha) in Hm. discriminate.
  - intros [? [=]].
  - intros (c & a & qn & Hc & Ha & Hqn & Hm). exfalso.
    assert (existsb (import_matches p c) names = true).
    { apply existsb_exists. exists a. split; [exact Ha|].
      apply existsb_exists. exists qn. auto. }
    rewrite (find_none _ _ F c Hc) in H. discriminate.
Qed.

(** ** The blacklist matcher *)

(** C1. First match wins on a [Call] node: whenever the rules loaded for
    [Call] contain a rule one of whose patterns matches the resolved
    qualified name, however many later rules match it as well, [blacklist]
    returns one Issue, the one of the earliest such rule in loaded order.
    The result type holds at most one Issue. *)
Theorem blacklist_call_first_match_wins (ctx : Context)
    (config : gmap string (list Check)) (func : expr) (args : list expr)
    (name : string) (pre post : list Check) (check : Check) :
  node ctx = Call func args ->
  call_name ctx func args = Ok (PyStr name) ->
  config !! "Call" = Some (pre ++ check :: post) ->
  (forall c, In c pre -> call_matches name c = false) ->
  call_matches name check = true ->
  blacklist ctx config = Ok (Some (report_issue check name)).
Proof.
  intros Hn Hname Hcfg Hpre Hc.
  rewrite (blacklist_call ctx config func args name _ Hn Hname Hcfg).
  rewrite (find_app_first _ pre post check Hpre Hc). reflexivity.
Qed.

(** C3. The match predicate depends on the node type.  On a [Call] node an
    Issue is returned exactly when some pattern of some rule matches the
    resolved qualified name by [fnmatch]; on [Import] and [ImportFrom] nodes
    exactly when some pattern is a string prefix of the optional module
    prefix plus "." followed by an imported name.  [fnmatch] is a glob
    match of the whole name: [*] matches every name, [?] exactly the names
    of one character, a character class one character of the class, and a
    pattern without metacharacters only itself; the prefix test knows no
    metacharacters. *)
Theorem blacklist_match_policy :
  (forall (ctx : Context) (config : gmap string (list Check)) func args name checks,
     node ctx = Call func args ->
     call_name ctx func args = Ok (PyStr name) ->
     config !! "Call" = Some checks ->
     exists r, blacklist ctx config = Ok r /\
       (is_Some r <->
        exists c qn, In c checks /\ In qn (qualnames c) /\ fnmatch name qn = true)) /\
  (forall (ctx : Context) (config : gmap string (list Check)) names checks,
     (node ctx = Import names \/ exists m, node ctx = ImportFrom m names) ->
     config !! node_class_name (node ctx) = Some checks ->
     exists r, blacklist ctx config = Ok r /\
       (is_Some r <->
        exists c a qn, In c checks /\ In a names /\ In qn (qualnames c) /\
          String.prefix qn (import_prefix (node ctx) +:+ alias_name a) = true)) /\
  (forall names, import_prefix (Import names) = "") /\
  (forall names, import_prefix (ImportFrom None names) = "") /\
  (forall m names, import_prefix (ImportFrom (Some m) names) = m +:+ ".") /\
  (forall name, fnmatch name "*" = true) /\
  (forall name, fnmatch name "?" = true <-> String.length name = 1) /\
  (forall name pat, plain_pattern pat = true -> (fnmatch name pat = true <-> name = pat)) /\
  fnmatch "os.system" "os" = false /\
  String.prefix "os" "os.system" = true /\
  fnmatch "os.system" "os.*" = true /\
  String.prefix "os.*" "os.system" = false /\
  fnmatch "os.system" "os.[a-s]ystem" = true /\
  fnmatch "os.system" "os.[!a-s]ystem" = false.
Proof.
  split; [|split].
  - intros ctx config func args name checks. apply blacklist_call_iff.
  - intros ctx config names checks. apply blacklist_import_iff.
  - repeat split; try reflexivity.
    + apply fnmatch_star_all.
    + apply fnmatch_question.
    + apply fnmatch_question.
    + apply fnmatch_plain; assumption.
    + apply fnmatch_plain; assumption.
Qed.

Lemma call_checks_some (name : pyval) (checks : list Check) (i : Issue) :
  call_checks name checks = Ok (Some i) -> exists s, name = PyStr s.
Proof.
  destruct name as [ |b|z|s]; [ | | | eauto].
  - rewrite call_checks_none. discriminate.
  - induction checks as [|c checks IH]; simpl; [discriminate|].
    destruct (qualnames c); simpl; [exact IH|discriminate].
  - induction checks as [|c checks IH]; simpl; [discriminate|].
    destruct (qualnames c); simpl; [exact IH|discriminate].
Qed.

Lemma import_checks_some (prefix : string) (names : list alias)
    (checks : list Check) (i : Issue) :
  import_checks prefix names checks = Some i ->
  exists c a, In c checks /\ In a names /\ import_matches prefix c a = true /\
    i = report_issue c (alias_name a).
Proof.
  rewrite import_checks_spec.
  destruct (find _ checks) as [c|] eqn:F; [|discriminate].
  destruct (find (import_matches prefix c) names) as [a|] eqn:G; [|discriminate].
  simpl. intros [= <-]. apply find_some in F as [Hc _]. apply find_some in G as [Ha Hm].
  exists c, a. auto.
Qed.

(** C2, as the code has it.  Every Issue [blacklist] returns is made from one
    of the rules loaded for the node type and from one name: its severity is
    the rule's ["level"] entry (MEDIUM when the rule has none), its
    confidence is HIGH whatever the rule holds, its weakness id is the
    rule's ["cwe"] entry (NOTSET when the rule has none), and its text is the
    rule's message with each [{name}] replaced by that name.  The name is the
    resolved qualified name on a [Call] node, and the imported name as
    written, without the module prefix, on an import node. *)
Theorem blacklist_issue_from_rule (ctx : Context)
    (config : gmap string (list Check)) (i : Issue) :
  blacklist ctx config = Ok (Some i) ->
  exists checks c name,
    config !! node_class_name (node ctx) = Some checks /\ In c checks /\
    i = report_issue c name /\
    severity i = dict_get (entries c) "level" MEDIUM /\
    (forall v, entries c !! "level" = Some v -> severity i = v) /\
    confidence i = HIGH /\
    cwe i = Some (dict_get (entries c) "cwe" Cwe_NOTSET) /\
    (forall v, entries c !! "cwe" = Some v -> cwe i = Some v) /\
    text i = str_replace "{name}" name (message c) /\
    ((exists func args, node ctx = Call func args /\
        call_name ctx func args = Ok (PyStr name) /\ call_matches name c = true) \/
     (exists names a,
        (node ctx = Import names \/ exists m, node ctx = ImportFrom m names) /\
        In a names /\ name = alias_name a /\
        import_matches (import_prefix (node ctx)) c a = true)).
Proof.
  intros H.
  assert (Hfields : forall c name, report_issue c name = i ->
    i = report_issue c name /\
    severity i = dict_get (entries c) "level" MEDIUM /\
    (forall v, entries c !! "level" = Some v -> severity i = v) /\
    confidence i = HIGH /\
    cwe i = Some (dict_get (entries c) "cwe" Cwe_NOTSET) /\
    (forall v, entries c !! "cwe" = Some v -> cwe i = Some v) /\
    text i = str_replace "{name}" name (message c)).
  { intros c name <-. repeat split; try reflexivity;
      intros v Hv; unfold report_issue, dict_get; cbn [severity cwe];
      rewrite Hv; reflexivity. }
  unfold blacklist in H. destruct (node ctx) as [func args|names|m names|cn] eqn:Hn;
    simpl in H.
  - destruct (call_name ctx func args) as [nm|e] eqn:Hname; simpl in H; [|discriminate].
    unfold getitem in H. destruct (config !! "Call") as [checks|] eqn:Hcfg;
      simpl in H; [|discriminate].
    destruct (call_checks nm checks) as [[i'|]|e] eqn:Hc; simpl in H; try discriminate.
    injection H as ->.
    destruct (call_checks_some _ _ _ Hc) as [s ->].
    rewrite call_checks_str in Hc.
    destruct (find (call_matches s) checks) as [c|] eqn:F; simpl in Hc; [|discriminate].
    injection Hc as Hc. apply find_some in F as [Hin Hm].
    exists checks, c, s. split; [exact Hcfg|]. split; [exact Hin|].
    destruct (Hfields c s Hc) as (?&?&?&?&?&?&?). repeat (split; [assumption|]).
    left. exists func, args. auto.
  - unfold getitem in H. destruct (config !! "Import") as [checks|] eqn:Hcfg;
      simpl in H; [|discriminate].
    injection H as H. apply import_checks_some in H as (c & a & Hc & Ha & Hm & ->).
    exists checks, c, (alias_name a). split; [exact Hcfg|]. split; [exact Hc|].
    destruct (Hfields c (alias_name a) eq_refl) as (?&?&?&?&?&?&?).
    repeat (split; [assumption|]).
    right. exists names, a. auto.
  - unfold getitem in H. destruct (config !! "ImportFrom") as [checks|] eqn:Hcfg;
      simpl in H; [|discriminate].
    injection H as H. apply import_checks_some in H as (c & a & Hc & Ha & Hm & ->).
    exists checks, c, (alias_name a). split; [exact Hcfg|]. split; [exact Hc|].
    destruct (Hfields c (alias_name a) eq_refl) as (?&?&?&?&?&?&?).
    repeat (split; [assumption|]).
    right. exists names, a. split; [right; eauto|]. auto.
  - destruct (String.eqb cn "Call"); simpl in H; [discriminate|].
    destruct (startswith cn "Import"); [|discriminate].
    destruct (String.eqb cn "ImportFrom"); [discriminate|].
    unfold getitem in H. destruct (config !! cn) as [[|c checks]|]; discriminate.
Qed.

Lemma import_names_alias_free (check : Check) (prefix : string)
    (names names' : list alias) :
  map alias_name names = map alias_name names' ->
  import_names check prefix names = import_names check prefix names'.
Proof.
  revert names'. induction names as [|a names IH]; intros [|a' names']; simpl;
    try discriminate; [reflexivity|].
  intros [= Ha Hrest]. rewrite !import_qualnames_spec, Ha, (IH names' Hrest).
  reflexivity.
Qed.

Lemma import_checks_alias_free (prefix : string) (names names' : list alias)
    (checks : list Check) :
  map alias_name names = map alias_name names' ->
  import_checks prefix names checks = import_checks prefix names' checks.
Proof.
  intros H. induction checks as [|c checks IH]; simpl; [reflexivity|].
  rewrite (import_names_alias_free c prefix names names' H), IH. reflexivity.
Qed.

(** C7. On an [Import] node the name put to the prefix test is the real
    dotted module name, never the local alias: the result of [blacklist] does
    not depend on the [asname] of any imported name, and for
    [import os.path as p] an Issue is returned exactly when some pattern of
    some rule loaded for [Import] is a prefix of "os.path"; the Issue then
    names "os.path". *)
Theorem blacklist_import_ignores_alias :
  (forall (ctx ctx' : Context) (config : gmap string (list Check)) names names',
     node ctx = Import names -> node ctx' = Import names' ->
     map alias_name names = map alias_name names' ->
     blacklist ctx config = blacklist ctx' config) /\
  (forall (ctx : Context) (config : gmap string (list Check)) checks local,
     node ctx = Import [mkAlias "os.path" local] ->
     config !! "Import" = Some checks ->
     exists r, blacklist ctx config = Ok r /\
       (is_Some r <->
        exists c qn, In c checks /\ In qn (qualnames c) /\
          String.prefix qn "os.path" = true) /\
       (forall i, r = Some i -> ident i = Some "os.path")).
Proof.
  split.
  - intros ctx ctx' config names names' Hn Hn' Hnames.
    unfold blacklist. rewrite Hn, Hn'. simpl.
    destruct (getitem config "Import") as [checks|e]; simpl; [|reflexivity].
    rewrite (import_checks_alias_free "" names names' checks Hnames). reflexivity.
  - intros ctx config checks local Hn Hcfg.
    destruct (blacklist_import_iff ctx config
                [mkAlias "os.path" local] checks) as (r & Hr & Hiff).
    { left. exact Hn. }
    { rewrite Hn. exact Hcfg. }
    exists r. split; [exact Hr|]. rewrite Hn in Hiff. simpl in Hiff. split.
    + rewrite Hiff. split.
      * intros (c & a & qn & Hc & [<-|[]] & Hqn & Hp). exists c, qn. auto.
      * intros (c & qn & Hc & Hqn & Hp). exists c, (mkAlias "os.path" local), qn.
        simpl. auto.
    + intros i ->.
      rewrite (blacklist_import ctx config [mkAlias "os.path" local] checks) in Hr.
      * injection Hr as Hr.
        apply import_checks_some in Hr as (c & a & _ & [<-|[]] & _ & ->). reflexivity.
      * left. exact Hn.
      * rewrite Hn. exact Hcfg.
Qed.

(** ** Dynamic imports *)

(** A call of the builtin [__import__] always resolves to a string. *)
Lemma call_name_import_builtin (ctx : Context) (func : expr) (args : list expr) :
  is_name func "__import__" = true ->
  call_name ctx func args =
  Ok (PyStr match args with
            | Str s :: _ => s
            | _ :: _ => "UNKNOWN"
            | [] => ""
            end).
Proof.
  intros H. unfold call_name. rewrite H.
  destruct args as [|[id|s|] args]; reflexivity.
Qed.

(** A call of [importlib.import_module] or [importlib.__import__] without
    positional arguments and without a [name] keyword raises [KeyError]. *)
Lemma blacklist_importlib_no_name (ctx : Context)
    (config : gmap string (list Check)) (func : expr) (args : list expr) :
  node ctx = Call func args ->
  is_name func "__import__" = false ->
  In (call_function_name_qual ctx) ["importlib.import_module"; "importlib.__import__"] ->
  call_args ctx = [] ->
  call_keywords ctx !! "name" = None ->
  blacklist ctx config = Raise (KeyError "name").
Proof.
  intros Hn Hf Hq Ha Hk. unfold blacklist. rewrite Hn. simpl.
  unfold call_name. rewrite Hf. cbv zeta.
  rewrite bool_decide_eq_true_2 by (apply list_elem_of_In; exact Hq).
  unfold call_args_count. rewrite Ha. simpl.
  unfold getitem. rewrite Hk. reflexivity.
Qed.

(** ** B113 *)

Lemma py_eq_str (v : pyval) (s : string) : py_eq v (PyStr s) = true <-> v = PyStr s.
Proof.
  destruct v as [ |b|z|t]; simpl; try (split; [discriminate|congruence]).
  rewrite String.eqb_eq. split; congruence.
Qed.

Lemma verbs_guard (ctx : Context) :
  str_contains "requests" (call_function_name_qual ctx) = true ->
  In (call_function_name ctx) http_verbs ->
  str_contains "requests" (call_function_name_qual ctx)
  && bool_decide (call_function_name ctx ∈ http_verbs) = true.
Proof.
  intros -> Hv. rewrite bool_decide_eq_true_2 by (apply list_elem_of_In; exact Hv).
  reflexivity.
Qed.

(** C5, as the code has it.  On a requests HTTP-verb call (the qualified
    name contains "requests" and the function name is an HTTP verb): without
    a [timeout] keyword the detector returns the Issue MEDIUM / LOW "Requests
    call without timeout"; with [timeout] bound to the string "None", which
    is how both [timeout=None] and the string literal [timeout='None'] reach
    the detector, it returns the Issue MEDIUM / LOW "Requests call with
    timeout set to None"; with [timeout] bound to any other value that is not
    [None], such as 5, it returns nothing. *)
Theorem request_without_timeout_scenarios (ctx : Context) :
  str_contains "requests" (call_function_name_qual ctx) = true ->
  In (call_function_name ctx) http_verbs ->
  (call_keywords ctx !! "timeout" = None ->
   request_without_timeout ctx =
   Some {| severity := MEDIUM; confidence := LOW; cwe := None;
           text := "Requests call without timeout";
           ident := None; lineno := None; test_id := None |}) /\
  (call_keywords ctx !! "timeout" = Some (PyStr "None") ->
   request_without_timeout ctx =
   Some {| severity := MEDIUM; confidence := LOW; cwe := None;
           text := "Requests call with timeout set to None";
           ident := None; lineno := None; test_id := None |}) /\
  (forall v, call_keywords ctx !! "timeout" = Some v ->
     v <> PyNone -> v <> PyStr "None" ->
     request_without_timeout ctx = None) /\
  (call_keywords ctx !! "timeout" = Some (PyInt 5) ->
   request_without_timeout ctx = None).
Proof.
  intros Hq Hv. pose proof (verbs_guard ctx Hq Hv) as G.
  assert (Hother : forall v, call_keywords ctx !! "timeout" = Some v ->
            v <> PyNone -> v <> PyStr "None" -> request_without_timeout ctx = None).
  { intros v Hk H1 H2. unfold request_without_timeout, check_call_arg_value.
    rewrite G, Hk. rewrite bool_decide_eq_false_2 by exact H1.
    destruct (py_eq v (PyStr "None")) eqn:E; [|reflexivity].
    apply py_eq_str in E. contradiction. }
  repeat split.
  - intros Hk. unfold request_without_timeout, check_call_arg_value.
    rewrite G, Hk. reflexivity.
  - intros Hk. unfold request_without_timeout, check_call_arg_value.
    rewrite G, Hk. reflexivity.
  - exact Hother.
  - intros Hk. apply (Hother _ Hk); discriminate.
Qed.

Lemma request_without_timeout_guard (ctx : Context) :
  is_Some (request_without_timeout ctx) ->
  str_contains "requests" (call_function_name_qual ctx) = true /\
  In (call_function_name ctx) http_verbs.
Proof.
  unfold request_without_timeout.
  destruct (str_contains _ _); simpl; [|intros [? [=]]].
  destruct (bool_decide _) eqn:E; [|intros [? [=]]].
  intros _. split; [reflexivity|].
  apply bool_decide_eq_true_1 in E. apply list_elem_of_In in E. exact E.
Qed.

(** C9. The gate of B113 is substring containment: a call whose timeout is
    missing or [None] (the two cases of C5 that give an Issue) is flagged
    whenever its qualified name contains "requests" anywhere and its
    function name is an HTTP verb; nothing is flagged unless the
    qualified name contains "requests" and the function name is an HTTP
    verb; two calls that agree on that containment test, on the function
    name and on the keyword arguments get the same answer, whatever their
    qualified names; and [my_requests_util.get], whose qualified name does
    not start with "requests", is flagged. *)
Theorem request_without_timeout_substring_gate :
  (forall ctx : Context,
     str_contains "requests" (call_function_name_qual ctx) = true ->
     In (call_function_name ctx) http_verbs ->
     call_keywords ctx !! "timeout" = None \/
     call_keywords ctx !! "timeout" = Some (PyStr "None") ->
     is_Some (request_without_timeout ctx)) /\
  (forall ctx : Context,
     is_Some (request_without_timeout ctx) ->
     str_contains "requests" (call_function_name_qual ctx) = true /\
     In (call_function_name ctx) http_verbs) /\
  (forall ctx ctx' : Context,
     str_contains "requests" (call_function_name_qual ctx) =
     str_contains "requests" (call_function_name_qual ctx') ->
     call_function_name ctx = call_function_name ctx' ->
     call_keywords ctx = call_keywords ctx' ->
     request_without_timeout ctx = request_without_timeout ctx') /\
  String.prefix "requests" "my_requests_util.get" = false /\
  is_Some (request_without_timeout
             (call_context OtherExpr [OtherExpr] "my_requests_util.get" "get"
                [PyNone] ∅ (fun _ => false))).
Proof.
  split; [|split; [|split; [|split]]].
  - intros ctx Hq Hv [Hk|Hk]; unfold request_without_timeout, check_call_arg_value;
      rewrite (verbs_guard ctx Hq Hv), Hk; simpl; eauto.
  - apply request_without_timeout_guard.
  - intros ctx ctx' Hq Hn Hk. unfold request_without_timeout, check_call_arg_value.
    rewrite Hq, Hn, Hk. reflexivity.
  - reflexivity.
  - vm_compute. eauto.
Qed.

(** ** B507 *)

Lemma first_arg_policy (args : list pyval) :
  first_arg_in args [PyStr "AutoAddPolicy"; PyStr "WarningPolicy"] = true <->
  exists v rest, args = v :: rest /\
    (v = PyStr "AutoAddPolicy" \/ v = PyStr "WarningPolicy").
Proof.
  destruct args as [|v rest]; simpl.
  - split; [discriminate|]. intros (? & ? & [=] & _).
  - rewrite !orb_true_iff, !py_eq_str. split.
    + intros [H|[H|[=]]]; exists v, rest; auto.
    + intros (? & ? & [= <- <-] & [H|H]); auto.
Qed.

(** C6. A call named [set_missing_host_key_policy] whose first positional
    argument resolves to [AutoAddPolicy], in a file with a paramiko-like
    import, gets one Issue of severity HIGH and confidence MEDIUM; in a file
    without a paramiko-like import the detector returns nothing. *)
Theorem ssh_no_host_key_verification_paramiko :
  (forall (ctx : Context) (rest : list pyval),
     is_module_imported_like ctx "paramiko" = true ->
     call_function_name ctx = "set_missing_host_key_policy" ->
     call_args ctx = PyStr "AutoAddPolicy" :: rest ->
     exists i, ssh_no_host_key_verification ctx = Some i /\
       severity i = HIGH /\ confidence i = MEDIUM) /\
  (forall ctx : Context,
     is_module_imported_like ctx "paramiko" = false ->
     ssh_no_host_key_verification ctx = None).
Proof.
  split.
  - intros ctx rest Hi Hn Ha. unfold ssh_no_host_key_verification.
    rewrite Hi, Hn, Ha. simpl. eexists. split; [reflexivity|]. split; reflexivity.
  - intros ctx Hi. unfold ssh_no_host_key_verification. rewrite Hi. reflexivity.
Qed.

(** C10, as the code has it.  B507 returns an Issue exactly when the file
    has a paramiko-like import, the function name is
    [set_missing_host_key_policy], and the call has a positional argument
    the first of which resolves to the string "AutoAddPolicy" or
    "WarningPolicy", however the argument is written; the Issue is then
    HIGH / MEDIUM, the same for both policies.  A call without positional
    arguments, whatever its keywords, and a call whose first argument
    resolves to anything else get nothing. *)
Theorem ssh_no_host_key_verification_first_argument :
  (forall (ctx : Context) (i : Issue),
     ssh_no_host_key_verification ctx = Some i <->
     is_module_imported_like ctx "paramiko" = true /\
     call_function_name ctx = "set_missing_host_key_policy" /\
     (exists v rest, call_args ctx = v :: rest /\
        (v = PyStr "AutoAddPolicy" \/ v = PyStr "WarningPolicy")) /\
     i = {| severity := HIGH; cwe := Some CWEMAP_B507; confidence := MEDIUM;
            text := "Paramiko call with policy set to automatically trust "
                    +:+ "the unknown host key.";
            ident := None;
            lineno := Some (get_lineno_for_call_arg ctx "set_missing_host_key_policy");
            test_id := None |}) /\
  (forall (ctx : Context) rest,
     is_module_imported_like ctx "paramiko" = true ->
     call_function_name ctx = "set_missing_host_key_policy" ->
     call_args ctx = PyStr "WarningPolicy" :: rest ->
     exists i, ssh_no_host_key_verification ctx = Some i /\
       severity i = HIGH /\ confidence i = MEDIUM) /\
  (forall ctx : Context,
     call_args ctx = [] -> ssh_no_host_key_verification ctx = None) /\
  (forall (ctx : Context) v rest,
     call_args ctx = v :: rest ->
     v <> PyStr "AutoAddPolicy" -> v <> PyStr "WarningPolicy" ->
     ssh_no_host_key_verification ctx = None) /\
  (forall (ctx ctx' : Context) rest rest',
     call_args ctx = PyStr "AutoAddPolicy" :: rest ->
     call_args ctx' = PyStr "WarningPolicy" :: rest' ->
     is_module_imported_like ctx "paramiko" = is_module_imported_like ctx' "paramiko" ->
     call_function_name ctx = call_function_name ctx' ->
     get_lineno_for_call_arg ctx "set_missing_host_key_policy" =
     get_lineno_for_call_arg ctx' "set_missing_host_key_policy" ->
     ssh_no_host_key_verification ctx = ssh_no_host_key_verification ctx') /\
  ssh_no_host_key_verification
    (call_context OtherExpr [] "ssh_client.set_missing_host_key_policy"
       "set_missing_host_key_policy" [] {[ "policy" := PyStr "AutoAddPolicy" ]}
       (fun _ => true)) = None.
Proof.
  assert (Hiff : forall (ctx : Context) (i : Issue),
     ssh_no_host_key_verification ctx = Some i <->
     is_module_imported_like ctx "paramiko" = true /\
     call_function_name ctx = "set_missing_host_key_policy" /\
     (exists v rest, call_args ctx = v :: rest /\
        (v = PyStr "AutoAddPolicy" \/ v = PyStr "WarningPolicy")) /\
     i = {| severity := HIGH; cwe := Some CWEMAP_B507; confidence := MEDIUM;
            text := "Paramiko call with policy set to automatically trust "
                    +:+ "the unknown host key.";
            ident := None;
            lineno := Some (get_lineno_for_call_arg ctx "set_missing_host_key_policy");
            test_id := None |}).
  { intros ctx i. unfold ssh_no_host_key_verification.
    destruct (is_module_imported_like ctx "paramiko") eqn:Hi; simpl.
    - destruct (String.eqb_spec (call_function_name ctx) "set_missing_host_key_policy")
        as [Hn|Hn].
      + destruct (first_arg_in _ _) eqn:Ha.
        * apply first_arg_policy in Ha. split.
          -- intros [= <-]. auto.
          -- intros (_ & _ & _ & ->). reflexivity.
        * split; [discriminate|]. intros (_ & _ & Hv & _).
          apply first_arg_policy in Hv. congruence.
      + split; [discriminate|]. intros (_ & Hn' & _). contradiction.
    - split; [discriminate|]. intros (H & _). discriminate. }
  split; [exact Hiff|]. split; [|split; [|split; [|split]]].
  - intros ctx rest Hi Hn Ha. eexists. split.
    + apply Hiff. split; [exact Hi|]. split; [exact Hn|]. split; [|reflexivity].
      exists (PyStr "WarningPolicy"), rest. auto.
    + split; reflexivity.
  - intros ctx Ha. unfold ssh_no_host_key_verification. rewrite Ha. simpl.
    destruct (_ && _); reflexivity.
  - intros ctx v rest Ha H1 H2. unfold ssh_no_host_key_verification.
    destruct (first_arg_in _ _) eqn:E; [|destruct (_ && _); reflexivity].
    apply first_arg_policy in E as (v' & rest' & Ha' & Hv).
    rewrite Ha in Ha'. injection Ha' as <- <-. destruct Hv; contradiction.
  - intros ctx ctx' rest rest' Ha Ha' Hi Hn Hl. unfold ssh_no_host_key_verification.
    rewrite Ha, Ha', Hi, Hn, Hl. reflexivity.
  - reflexivity.
Qed.

(** ** Exit status *)

(** C8. After the scan the exit status is nonzero exactly when the count of
    results matching the selected severity and confidence filter is greater
    than zero and the exit-zero override is not set; with the override set,
    or with a count of zero, it is zero. *)
Theorem main_exit_status_nonzero_iff (sev_level conf_level : pyval) (exit_zero : bool) :
  (main_exit_status sev_level conf_level exit_zero <> 0%Z <->
   0 < results_count sev_level conf_level /\ exit_zero = false) /\
  (exit_zero = true \/ results_count sev_level conf_level = 0 <->
   main_exit_status sev_level conf_level exit_zero = 0%Z) /\
  (main_exit_status sev_level conf_level exit_zero = 0%Z \/
   main_exit_status sev_level conf_level exit_zero = 1%Z).
Proof.
  unfold main_exit_status.
  destruct (Nat.ltb_spec 0 (results_count sev_level conf_level)) as [Hc|Hc];
    destruct exit_zero; simpl; repeat split; intros; try discriminate;
    try congruence; try lia; auto; intuition (try discriminate; try lia).
Qed.


(** ** Further properties of the blacklist matcher *)

Lemma call_checks_not_str (v : pyval) (checks : list Check) :
  (forall s, v <> PyStr s) -> v <> PyNone ->
  call_checks v checks =
  if existsb (fun c => negb (bool_decide (qualnames c = []))) checks
  then Raise TypeError else Ok None.
Proof.
  intros Hs Hn. induction checks as [|c checks IH]; simpl; [reflexivity|].
  destruct (qualnames c) as [|qn qns] eqn:Q; simpl.
  - exact IH.
  - destruct v; try reflexivity; [contradiction|].
    exfalso. eapply Hs. reflexivity.
Qed.

Lemma replace_absent (old new s : string) :
  str_contains old s = false -> str_replace old new s = s.
Proof.
  induction s as [|c s IH]; intros H.
  - reflexivity.
  - change (str_contains old (String c s)) with
      (String.prefix old (String c s) || str_contains old s) in H.
    apply orb_false_elim in H as [Hp Hc].
    rewrite (str_replace_other c old new s Hp), (IH Hc). reflexivity.
Qed.

Lemma existsb_none {A : Type} (f : A -> bool) (l : list A) :
  (forall x, In x l -> f x = false) -> existsb f l = false.
Proof.
  intros H. destruct (existsb f l) eqn:E; [|reflexivity].
  apply existsb_exists in E as (x & Hx & Hf). rewrite (H x Hx) in Hf. discriminate.
Qed.

(** X1. A node is matched against the rules loaded for its own type and
    against nothing else: two configurations that agree on the entry of the
    node's class name give the same result, errors included. *)
Theorem blacklist_own_rules_only (ctx : Context)
    (config config' : gmap string (list Check)) :
  config !! node_class_name (node ctx) = config' !! node_class_name (node ctx) ->
  blacklist ctx config = blacklist ctx config'.
Proof.
  intros H. unfold blacklist.
  destruct (node ctx) as [func args|names|m names|cn]; simpl in *;
    unfold getitem; rewrite ?H; reflexivity.
Qed.

(** X2. Without an entry for the node's type the matcher raises [KeyError]
    with the class name: on every [Import] and [ImportFrom] node, and on a
    [Call] node once its name is resolved. *)
Theorem blacklist_missing_rules :
  (forall (ctx : Context) (config : gmap string (list Check)) names,
     (node ctx = Import names \/ exists m, node ctx = ImportFrom m names) ->
     config !! node_class_name (node ctx) = None ->
     blacklist ctx config = Raise (KeyError (node_class_name (node ctx)))) /\
  (forall (ctx : Context) (config : gmap string (list Check)) func args name,
     node ctx = Call func args ->
     call_name ctx func args = Ok name ->
     config !! "Call" = None ->
     blacklist ctx config = Raise (KeyError "Call")).
Proof.
  split.
  - intros ctx config names [Hn|[m Hn]] H; unfold blacklist; rewrite Hn in *;
      simpl in *; unfold getitem; rewrite H; reflexivity.
  - intros ctx config func args name Hn Hname H. unfold blacklist. rewrite Hn.
    simpl. rewrite Hname. simpl. unfold getitem. rewrite H. reflexivity.
Qed.

(** X3. A node of any other class (its name is not "Call" and does not
    start with "Import") gets no Issue and no error, whatever the
    configuration holds. *)
Theorem blacklist_other_node (ctx : Context) (config : gmap string (list Check))
    (cn : string) :
  node ctx = OtherNode cn ->
  cn <> "Call" ->
  startswith cn "Import" = false ->
  blacklist ctx config = Ok None.
Proof.
  intros Hn Hc Hi. unfold blacklist. rewrite Hn. simpl.
  destruct (String.eqb_spec cn "Call") as [E|_]; [contradiction|].
  simpl. rewrite Hi. reflexivity.
Qed.

(** X4. A call whose name resolves to [None] gets no Issue, whatever the
    rules, even a rule with the pattern [*]; a call whose name resolves to a
    number or a boolean makes [fnmatch] raise [TypeError] as soon as one
    rule has a pattern, and gets no Issue when no rule has one. *)
Theorem blacklist_unresolved_name :
  (forall (ctx : Context) (config : gmap string (list Check)) func args checks,
     node ctx = Call func args ->
     call_name ctx func args = Ok PyNone ->
     config !! "Call" = Some checks ->
     blacklist ctx config = Ok None) /\
  (forall (ctx : Context) (config : gmap string (list Check)) func args checks v,
     node ctx = Call func args ->
     call_name ctx func args = Ok v ->
     (forall s, v <> PyStr s) -> v <> PyNone ->
     config !! "Call" = Some checks ->
     blacklist ctx config =
     if existsb (fun c => negb (bool_decide (qualnames c = []))) checks
     then Raise TypeError else Ok None).
Proof.
  split.
  - intros ctx config func args checks Hn Hname Hcfg. unfold blacklist.
    rewrite Hn. simpl. rewrite Hname. simpl. unfold getitem. rewrite Hcfg. simpl.
    rewrite call_checks_none. reflexivity.
  - intros ctx config func args checks v Hn Hname Hs Hv Hcfg. unfold blacklist.
    rewrite Hn. simpl. rewrite Hname. simpl. unfold getitem. rewrite Hcfg. simpl.
    rewrite (call_checks_not_str v checks Hs Hv).
    destruct (existsb _ checks); reflexivity.
Qed.

(** X5. First match wins on import nodes, rule by rule: the Issue comes from
    the earliest rule that matches any imported name and, within that rule,
    from the earliest imported name it matches, even when a later rule
    matches an earlier name. *)
Theorem blacklist_import_first_match (ctx : Context)
    (config : gmap string (list Check)) (names npre npost : list alias) (a : alias)
    (pre post : list Check) (check : Check) :
  (node ctx = Import names \/ exists m, node ctx = ImportFrom m names) ->
  config !! node_class_name (node ctx) = Some (pre ++ check :: post) ->
  names = npre ++ a :: npost ->
  (forall c a', In c pre -> In a' names ->
     import_matches (import_prefix (node ctx)) c a' = false) ->
  (forall a', In a' npre -> import_matches (import_prefix (node ctx)) check a' = false) ->
  import_matches (import_prefix (node ctx)) check a = true ->
  blacklist ctx config = Ok (Some (report_issue check (alias_name a))).
Proof.
  intros Hn Hcfg Hnames Hpre Hnpre Ha.
  rewrite (blacklist_import ctx config names _ Hn Hcfg), import_checks_spec.
  set (p := import_prefix (node ctx)) in *.
  rewrite (find_app_first (fun c => existsb (import_matches p c) names) pre post check).
  - rewrite Hnames, (find_app_first (import_matches p check) npre npost a Hnpre Ha).
    reflexivity.
  - intros c Hc. apply existsb_none. intros a' Ha'. apply Hpre; assumption.
  - apply existsb_exists. exists a. split; [|exact Ha].
    rewrite Hnames. apply in_or_app. right. left. reflexivity.
Qed.

(** X6. A call of the builtin [__import__] is matched under the string
    literal that is its first argument, under "UNKNOWN" when the first
    argument is no string literal, and under the empty name when it has no
    argument; nothing the facade answers about the call is used. *)
Theorem blacklist_builtin_import :
  (forall (ctx : Context) (config : gmap string (list Check)) args checks,
     node ctx = Call (Name "__import__") args ->
     config !! "Call" = Some checks ->
     let name := match args with
                 | Str s :: _ => s
                 | _ :: _ => "UNKNOWN"
                 | [] => ""
                 end in
     blacklist ctx config =
     Ok ((fun c => report_issue c name) <$> find (call_matches name) checks)) /\
  (forall (ctx ctx' : Context) (config : gmap string (list Check)) args,
     node ctx = Call (Name "__import__") args ->
     node ctx' = Call (Name "__import__") args ->
     blacklist ctx config = blacklist ctx' config).
Proof.
  split.
  - intros ctx config args checks Hn Hcfg name.
    apply (blacklist_call ctx config (Name "__import__") args name checks Hn);
      [|exact Hcfg].
    apply call_name_import_builtin. reflexivity.
  - intros ctx ctx' config args Hn Hn'. unfold blacklist. rewrite Hn, Hn'.
    reflexivity.
Qed.

(** X7. A call of [importlib.import_module] or [importlib.__import__] is
    matched, against the rules for [Call], under the module name it imports:
    the first positional argument when there is one, the keyword [name]
    otherwise. *)
Theorem blacklist_importlib_target (ctx : Context)
    (config : gmap string (list Check)) (func : expr) (args : list expr)
    (m : string) (checks : list Check) :
  node ctx = Call func args ->
  is_name func "__import__" = false ->
  In (call_function_name_qual ctx) ["importlib.import_module"; "importlib.__import__"] ->
  (exists rest, call_args ctx = PyStr m :: rest) \/
  (call_args ctx = [] /\ call_keywords ctx !! "name" = Some (PyStr m)) ->
  config !! "Call" = Some checks ->
  blacklist ctx config =
  Ok ((fun c => report_issue c m) <$> find (call_matches m) checks).
Proof.
  intros Hn Hf Hq Hm Hcfg.
  apply (blacklist_call ctx config func args m checks Hn); [|exact Hcfg].
  unfold call_name. rewrite Hf. cbv zeta.
  rewrite bool_decide_eq_true_2 by (apply list_elem_of_In; exact Hq).
  unfold call_args_count.
  destruct Hm as [[rest Ha]|[Ha Hk]]; rewrite Ha; simpl; [reflexivity|].
  unfold getitem. rewrite Hk. reflexivity.
Qed.

(** X8. A message without the placeholder [{name}] is reported as it is. *)
Theorem report_issue_without_placeholder (check : Check) (name : string) :
  str_contains "{name}" (message check) = false ->
  text (report_issue check name) = message check.
Proof. intros H. unfold report_issue; cbn [text]. apply replace_absent. exact H. Qed.

End Bandit.

(** ** The properties at sample inputs *)

Lemma blacklist_call_first_match_wins_witness :
  blacklist (PyInt 0) os_system_call call_rules =
  Ok (Some (report_issue (PyInt 0) rule_os_sys "os.system")).
Proof.
  apply (blacklist_call_first_match_wins (PyInt 0) os_system_call call_rules
           OtherExpr [Str "ls"] "os.system" [rule_subprocess] [rule_os_any] rule_os_sys).
  - reflexivity.
  - reflexivity.
  - reflexivity.
  - intros c [<-|[]]. reflexivity.
  - reflexivity.
Defined.

(** [from os import system] under a rule that declares a confidence of LOW:
    the name tested is "os.system", the Issue has confidence HIGH and its
    text names "system". *)
Lemma blacklist_declared_confidence_counterexample :
  exists i,
    blacklist (PyInt 0) from_os_import_system import_rules = Ok (Some i) /\
    import_rules !! "ImportFrom" = Some [rule_import_system] /\
    entries rule_import_system !! "confidence" = Some LOW /\
    confidence i <> LOW /\
    startswith (import_prefix (node from_os_import_system) +:+ "system") "os.system" = true /\
    text i <> str_replace "{name}" "os.system" (message rule_import_system).
Proof.
  exists (report_issue (PyInt 0) rule_import_system "system").
  split; [reflexivity|]. split; [reflexivity|]. split; [reflexivity|].
  split; [discriminate|]. split; [reflexivity|]. vm_compute. discriminate.
Qed.

Lemma blacklist_issue_from_rule_witness :
  blacklist (PyInt 0) from_os_import_system import_rules =
    Ok (Some (report_issue (PyInt 0) rule_import_system "system")) /\
  exists checks c name,
    import_rules !! "ImportFrom" = Some checks /\ In c checks /\
    report_issue (PyInt 0) rule_import_system "system" = report_issue (PyInt 0) c name /\
    severity (report_issue (PyInt 0) rule_import_system "system") =
      dict_get (entries c) "level" MEDIUM /\
    confidence (report_issue (PyInt 0) rule_import_system "system") = HIGH /\
    text (report_issue (PyInt 0) rule_import_system "system") =
      str_replace "{name}" name (message c).
Proof.
  split; [reflexivity|].
  destruct (blacklist_issue_from_rule (PyInt 0) from_os_import_system import_rules
              (report_issue (PyInt 0) rule_import_system "system") eq_refl)
    as (checks & c & name & H1 & H2 & H3 & H4 & _ & H6 & _ & _ & H9 & _).
  exists checks, c, name. auto 10.
Defined.

Lemma blacklist_match_policy_witness :
  (exists r, blacklist (PyInt 0) os_system_call call_rules = Ok r /\
     (is_Some r <->
      exists c qn, In c [rule_subprocess; rule_os_sys; rule_os_any] /\
        In qn (qualnames c) /\ fnmatch "os.system" qn = true)) /\
  (exists r, blacklist (PyInt 0) from_os_import_system import_rules = Ok r /\
     (is_Some r <->
      exists c a qn, In c [rule_import_system] /\ In a [mkAlias "system" None] /\
        In qn (qualnames c) /\
        String.prefix qn (import_prefix (node from_os_import_system) +:+ alias_name a)
        = true)).
Proof.
  split.
  - apply (proj1 (blacklist_match_policy (PyInt 0)) os_system_call call_rules
             OtherExpr [Str "ls"] "os.system"); reflexivity.
  - apply (proj1 (proj2 (blacklist_match_policy (PyInt 0)))
             from_os_import_system import_rules [mkAlias "system" None]).
    + right. exists (Some "os"). reflexivity.
    + reflexivity.
Defined.

Lemma blacklist_import_ignores_alias_witness :
  blacklist (PyInt 0) import_os_path_as_p import_rules =
  blacklist (PyInt 0) import_os_path import_rules /\
  exists r, blacklist (PyInt 0) import_os_path_as_p import_rules = Ok r /\
    (is_Some r <->
     exists c qn, In c [rule_import_os] /\ In qn (qualnames c) /\
       String.prefix qn "os.path" = true) /\
    (forall i, r = Some i -> ident i = Some "os.path").
Proof.
  split.
  - apply (proj1 (blacklist_import_ignores_alias (PyInt 0))
             import_os_path_as_p import_os_path import_rules
             [mkAlias "os.path" (Some "p")] [mkAlias "os.path" None]); reflexivity.
  - apply (proj2 (blacklist_import_ignores_alias (PyInt 0))
             import_os_path_as_p import_rules [rule_import_os] (Some "p")); reflexivity.
Defined.

(** C4 at [importlib.import_module()]: the call has no positional argument
    and no [name] keyword, and [blacklist] raises [KeyError] under every
    configuration, where the claim has it resolve to an unknown marker. *)
Theorem blacklist_import_module_no_arguments_raises (notset : pyval)
    (config : gmap string (list Check)) :
  blacklist notset import_module_no_arguments config = Raise (KeyError "name").
Proof.
  apply (blacklist_importlib_no_name notset import_module_no_arguments config
           OtherExpr []); try reflexivity.
  left. reflexivity.
Qed.

Lemma request_without_timeout_scenarios_witness :
  request_without_timeout (requests_get ∅) =
    Some {| severity := MEDIUM; confidence := LOW; cwe := None;
            text := "Requests call without timeout";
            ident := None; lineno := None; test_id := None |} /\
  request_without_timeout (requests_get {[ "timeout" := PyStr "None" ]}) =
    Some {| severity := MEDIUM; confidence := LOW; cwe := None;
            text := "Requests call with timeout set to None";
            ident := None; lineno := None; test_id := None |} /\
  request_without_timeout (requests_get {[ "timeout" := PyInt 5 ]}) = None.
Proof.
  assert (Hv : In "get" http_verbs) by (left; reflexivity).
  split; [|split].
  - apply (proj1 (request_without_timeout_scenarios (requests_get ∅) eq_refl Hv)).
    reflexivity.
  - apply (proj1 (proj2 (request_without_timeout_scenarios
                           (requests_get {[ "timeout" := PyStr "None" ]}) eq_refl Hv))).
    reflexivity.
  - apply (proj2 (proj2 (proj2 (request_without_timeout_scenarios
                           (requests_get {[ "timeout" := PyInt 5 ]}) eq_refl Hv)))).
    reflexivity.
Defined.

Lemma request_without_timeout_substring_gate_witness :
  is_Some (request_without_timeout
             (call_context OtherExpr [] "my_requests_util.get" "get" [] ∅
                (fun _ => false))).
Proof.
  apply (proj1 request_without_timeout_substring_gate
           (call_context OtherExpr [] "my_requests_util.get" "get" [] ∅
              (fun _ => false))).
  - reflexivity.
  - left. reflexivity.
  - left. reflexivity.
Defined.

Lemma ssh_no_host_key_verification_paramiko_witness :
  (exists i, ssh_no_host_key_verification (PyInt 295)
               (set_policy (PyStr "AutoAddPolicy") true) = Some i /\
     severity i = HIGH /\ confidence i = MEDIUM) /\
  ssh_no_host_key_verification (PyInt 295)
    (set_policy (PyStr "AutoAddPolicy") false) = None.
Proof.
  split.
  - apply (proj1 (ssh_no_host_key_verification_paramiko (PyInt 295))
             (set_policy (PyStr "AutoAddPolicy") true) []); reflexivity.
  - apply (proj2 (ssh_no_host_key_verification_paramiko (PyInt 295))
             (set_policy (PyStr "AutoAddPolicy") false)); reflexivity.
Defined.

Lemma ssh_no_host_key_verification_first_argument_witness :
  (exists i, ssh_no_host_key_verification (PyInt 295)
               (set_policy (PyStr "WarningPolicy") true) = Some i /\
     severity i = HIGH /\ confidence i = MEDIUM) /\
  ssh_no_host_key_verification (PyInt 295) (set_policy (PyInt 7) true) = None /\
  ssh_no_host_key_verification (PyInt 295) (set_policy (PyStr "AutoAddPolicy") true) =
  ssh_no_host_key_verification (PyInt 295) (set_policy (PyStr "WarningPolicy") true).
Proof.
  split; [|split].
  - apply (proj1 (proj2 (ssh_no_host_key_verification_first_argument (PyInt 295)))
             (set_policy (PyStr "WarningPolicy") true) []); reflexivity.
  - apply (proj1 (proj2 (proj2 (proj2
             (ssh_no_host_key_verification_first_argument (PyInt 295)))))
             (set_policy (PyInt 7) true) (PyInt 7) []);
      [reflexivity|discriminate|discriminate].
  - apply (proj1 (proj2 (proj2 (proj2 (proj2
             (ssh_no_host_key_verification_first_argument (PyInt 295))))))
             (set_policy (PyStr "AutoAddPolicy") true)
             (set_policy (PyStr "WarningPolicy") true) [] []); reflexivity.
Defined.

(** [requests.get(url, timeout='None')]: the keyword is bound to a string,
    not to [None], and the detector returns the Issue for a timeout set to
    [None]. *)
Lemma request_without_timeout_string_literal_counterexample :
  call_keywords (requests_get {[ "timeout" := PyStr "None" ]}) !! "timeout"
    = Some (PyStr "None") /\
  PyStr "None" <> PyNone /\
  str_contains "requests"
    (call_function_name_qual (requests_get {[ "timeout" := PyStr "None" ]})) = true /\
  In (call_function_name (requests_get {[ "timeout" := PyStr "None" ]})) http_verbs /\
  request_without_timeout (requests_get {[ "timeout" := PyStr "None" ]}) =
    Some {| severity := MEDIUM; confidence := LOW; cwe := None;
            text := "Requests call with timeout set to None";
            ident := None; lineno := None; test_id := None |} /\
  request_without_timeout (requests_get {[ "timeout" := PyStr "None" ]}) <> None.
Proof.
  split; [reflexivity|]. split; [discriminate|]. split; [reflexivity|].
  split; [left; reflexivity|]. split; [reflexivity|]. discriminate.
Qed.

(** [ssh_client.set_missing_host_key_policy('AutoAddPolicy')]: the first
    positional argument is a string literal, not an identifier, and the
    detector returns an Issue. *)
Lemma ssh_no_host_key_verification_string_literal_counterexample :
  node (policy_as_string_literal) = Call OtherExpr [Str "AutoAddPolicy"] /\
  call_args policy_as_string_literal = [PyStr "AutoAddPolicy"] /\
  (forall id, Str "AutoAddPolicy" <> Name id) /\
  ssh_no_host_key_verification (PyInt 295) policy_as_string_literal <> None /\
  exists i, ssh_no_host_key_verification (PyInt 295) policy_as_string_literal = Some i /\
    severity i = HIGH /\ confidence i = MEDIUM.
Proof.
  split; [reflexivity|]. split; [reflexivity|]. split; [discriminate|].
  split; [discriminate|]. eexists. split; [reflexivity|]. split; reflexivity.
Qed.

(** ** The further properties at sample inputs *)

Lemma blacklist_own_rules_only_witness :
  blacklist (PyInt 0) os_system_call call_rules =
  blacklist (PyInt 0) os_system_call (<["Import" := [rule_pickle]]> call_rules).
Proof.
  apply (blacklist_own_rules_only (PyInt 0) os_system_call call_rules
           (<["Import" := [rule_pickle]]> call_rules)).
  reflexivity.
Defined.

Lemma blacklist_missing_rules_witness :
  blacklist (PyInt 0) import_os_path call_rules = Raise (KeyError "Import") /\
  blacklist (PyInt 0) os_system_call import_rules = Raise (KeyError "Call").
Proof.
  split.
  - apply (proj1 (blacklist_missing_rules (PyInt 0)) import_os_path call_rules
             [mkAlias "os.path" None]); [left|]; reflexivity.
  - apply (proj2 (blacklist_missing_rules (PyInt 0)) os_system_call import_rules
             OtherExpr [Str "ls"] (PyStr "os.system")); reflexivity.
Defined.

Lemma blacklist_other_node_witness :
  blacklist (PyInt 0) (import_context (OtherNode "Name")) call_rules = Ok None.
Proof.
  apply (blacklist_other_node (PyInt 0) (import_context (OtherNode "Name"))
           call_rules "Name"); [reflexivity|discriminate|reflexivity].
Defined.

Lemma blacklist_unresolved_name_witness :
  blacklist (PyInt 0) (import_module_of PyNone) call_rules = Ok None /\
  blacklist (PyInt 0) (import_module_of (PyInt 5)) call_rules = Raise TypeError.
Proof.
  split.
  - apply (proj1 (blacklist_unresolved_name (PyInt 0)) (import_module_of PyNone)
             call_rules OtherExpr [OtherExpr] [rule_subprocess; rule_os_sys; rule_os_any]);
      reflexivity.
  - apply (proj2 (blacklist_unresolved_name (PyInt 0)) (import_module_of (PyInt 5))
             call_rules OtherExpr [OtherExpr] [rule_subprocess; rule_os_sys; rule_os_any]
             (PyInt 5)); try reflexivity; discriminate.
Defined.

Lemma blacklist_import_first_match_witness :
  blacklist (PyInt 0) import_json_pickle json_pickle_rules =
  Ok (Some (report_issue (PyInt 0) rule_pickle "pickle")).
Proof.
  apply (blacklist_import_first_match (PyInt 0) import_json_pickle json_pickle_rules
           [mkAlias "json" None; mkAlias "pickle" None] [mkAlias "json" None] []
           (mkAlias "pickle" None) [] [rule_json] rule_pickle).
  - left. reflexivity.
  - reflexivity.
  - reflexivity.
  - intros c a' [].
  - intros a' [<-|[]]. reflexivity.
  - reflexivity.
Defined.

Lemma blacklist_builtin_import_witness :
  blacklist (PyInt 0) (builtin_import OtherExpr PyNone) call_rules =
  Ok ((fun c => report_issue (PyInt 0) c "UNKNOWN")
        <$> find (call_matches "UNKNOWN") [rule_subprocess; rule_os_sys; rule_os_any]) /\
  blacklist (PyInt 0) (builtin_import (Str "pickle") (PyStr "pickle")) call_rules =
  blacklist (PyInt 0) (builtin_import (Str "pickle") (PyStr "other")) call_rules.
Proof.
  split.
  - apply (proj1 (blacklist_builtin_import (PyInt 0)) (builtin_import OtherExpr PyNone)
             call_rules [OtherExpr]); reflexivity.
  - apply (proj2 (blacklist_builtin_import (PyInt 0))
             (builtin_import (Str "pickle") (PyStr "pickle"))
             (builtin_import (Str "pickle") (PyStr "other")) call_rules [Str "pickle"]);
      reflexivity.
Defined.

Lemma blacklist_importlib_target_witness :
  blacklist (PyInt 0) import_module_by_keyword call_rules =
  Ok (Some (report_issue (PyInt 0) rule_os_sys "os.system")).
Proof.
  apply (blacklist_importlib_target (PyInt 0) import_module_by_keyword call_rules
           OtherExpr [] "os.system" [rule_subprocess; rule_os_sys; rule_os_any]).
  - reflexivity.
  - reflexivity.
  - left. reflexivity.
  - right. split; reflexivity.
  - reflexivity.
Defined.

Lemma report_issue_without_placeholder_witness :
  text (report_issue (PyInt 0) rule_fixed_text "eval") = "Use of eval detected.".
Proof.
  apply (report_issue_without_placeholder (PyInt 0) rule_fixed_text "eval").
  reflexivity.
Defined.

(** ** Properties of the command line *)

Module CliFacts.
Import Cli.

Lemma bind_ending {A B : Type} (m : cli A) (f : A -> cli B) :
  ending (m ≫= f) =
  match ending m with
  | Return a => ending (f a)
  | Raised e => Raised e
  end.
Proof. unfold mbind, cli_bind. destruct (ending m); reflexivity. Qed.


Lemma log_option_source_ending (a i : optval) (n : string) :
  ending (_log_option_source a i n) = Return (option_source a i).
Proof.
  unfold _log_option_source, option_source.
  destruct (truth a); [reflexivity|]. destruct (truth i); reflexivity.
Qed.

Lemma option_source_none_or_truthy (a i : optval) :
  option_source a i = ONone \/ truth (option_source a i) = true.
Proof.
  unfold option_source. destruct (truth a) eqn:Ea; [auto|].
  destruct (truth i) eqn:Ei; auto.
Qed.

Lemma option_source_truthy (a i : optval) :
  truth a = true -> option_source a i = a.
Proof. unfold option_source. intros ->. reflexivity. Qed.

(** X9. [_log_option_source] never fails and never returns a false value
    other than [None]: it returns the command line value when that is true,
    else the ini value when that is true, else [None], so that [False], 0,
    an empty string or an empty list on the command line come back as
    [None] when the ini value is false too; it logs one record, at level
    INFO and naming the option, exactly when the value it returns is true,
    and applying it again to its result changes nothing. *)
Theorem log_option_source_none_or_truthy (arg_val ini_val : optval)
    (option_name : string) :
  exists v,
    ending (_log_option_source arg_val ini_val option_name) = Return v /\
    (v = ONone \/ truth v = true) /\
    (truth arg_val = true -> v = arg_val) /\
    (truth arg_val = false -> truth ini_val = true -> v = ini_val) /\
    (truth arg_val = false -> truth ini_val = false -> v = ONone) /\
    length (logged (_log_option_source arg_val ini_val option_name)) =
      (if truth v then 1 else 0) /\
    (forall r, In r (logged (_log_option_source arg_val ini_val option_name)) ->
       log_lvl r = INFO /\ log_args r = [LStr option_name]) /\
    ending (_log_option_source v ini_val option_name) = Return v.
Proof.
  exists (option_source arg_val ini_val).
  split; [apply log_option_source_ending|].
  split; [apply option_source_none_or_truthy|].
  unfold _log_option_source, option_source.
  destruct (truth arg_val) eqn:Ea.
  - rewrite Ea. repeat split; try reflexivity; try discriminate;
      destruct H as [<-|[]]; reflexivity.
  - destruct (truth ini_val) eqn:Ei.
    + rewrite Ei. repeat split; try reflexivity; try discriminate;
        destruct H as [<-|[]]; reflexivity.
    + simpl. repeat split; try reflexivity; try discriminate; destruct H.
Qed.

Section Facts.

Variable os_walk : string -> list (string * list string * list string).
Variable parse_ini_file : optval -> cli (option (gmap string string)).
Variable py_str : optval -> string.
Variable set_iter : gset string -> list string.
Variable validate_profile : profile -> cli unit.

(** *** The options of the [.bandit] file *)

Lemma merge_ini_ending (args : Args) (ini : gmap string string) :
  ini <> ∅ ->
  ending (merge_ini args (Some ini)) =
  Return
    {| targets := option_source (targets args) (ini_targets_of ini);
       recursive := option_source (recursive args) (ini_get ini "recursive");
       agg_type := option_source (agg_type args) (ini_get ini "aggregate");
       context_lines := option_source (context_lines args) (ini_get ini "number");
       config_file := config_file args;
       profile_name := option_source (profile_name args) (ini_get ini "profile");
       tests := option_source (tests args) (ini_get ini "tests");
       skips := option_source (skips args) (ini_get ini "skips");
       severity := option_source (severity args) (ini_get ini "level");
       confidence := option_source (confidence args) (ini_get ini "confidence");
       output_format := option_source (output_format args) (ini_get ini "format");
       msg_template := option_source (msg_template args) (ini_get ini "msg-template");
       output_file := option_source (output_file args) (ini_get ini "output");
       verbose := option_source (verbose args) (ini_get ini "verbose");
       debug := option_source (debug args) (ini_get ini "debug");
       quiet := option_source (quiet args) (ini_get ini "quiet");
       ignore_nosec := option_source (ignore_nosec args) (ini_get ini "ignore-nosec");
       excluded_paths := option_source (excluded_paths args) (ini_get ini "exclude");
       baseline := option_source (baseline args) (ini_get ini "baseline");
       ini_path := ini_path args;
       exit_zero := exit_zero args |}.
Proof.
  intros Hne. unfold merge_ini, ini_given.
  rewrite bool_decide_eq_false_2 by exact Hne. cbn [negb default].
  repeat (rewrite bind_ending, log_option_source_ending; cbv beta iota).
  reflexivity.
Qed.

Lemma merge_ini_absent (args : Args) (ini : option (gmap string string)) :
  ini_given ini = false -> merge_ini args ini = mret args.
Proof. unfold merge_ini. intros ->. reflexivity. Qed.

(** X10. Reading the options of a [.bandit] file never fails and leaves
    [config_file], [ini_path] and [exit_zero] alone.  Without options (no
    file, or an empty section) [args] is unchanged.  With options, each of
    the eighteen attributes it assigns keeps a command line value that is
    true, and ends up either true or [None]: a false command line value
    such as [recursive = False] is replaced by the ini value or by
    [None]. *)
Theorem merge_ini_attributes (args : Args) (ini : option (gmap string string)) :
  exists args',
    ending (merge_ini args ini) = Return args' /\
    config_file args' = config_file args /\
    ini_path args' = ini_path args /\
    exit_zero args' = exit_zero args /\
    (ini_given ini = false -> args' = args /\ logged (merge_ini args ini) = []) /\
    (ini_given ini = true ->
     forall get, In get merged_attributes ->
       (get args' = ONone \/ truth (get args') = true) /\
       (truth (get args) = true -> get args' = get args)).
Proof.
  destruct (ini_given ini) eqn:G.
  - destruct ini as [d|]; [|discriminate]. simpl in G.
    apply negb_true_iff, bool_decide_eq_false_1 in G.
    eexists. split; [apply (merge_ini_ending args d G)|].
    repeat split; try reflexivity; try discriminate.
    + simpl in H0.
      repeat (destruct H0 as [<-|H0]; [apply option_source_none_or_truthy|]).
      destruct H0.
    + simpl in H0. intros Ht.
      repeat (destruct H0 as [<-|H0]; [apply option_source_truthy; exact Ht|]).
      destruct H0.
  - exists args. rewrite (merge_ini_absent args ini G).
    repeat split; try reflexivity; discriminate.
Qed.

(** *** Output formats and output files *)

Lemma exit_ending {A : Type} (r : log_record) (code : Z) :
  ending (mkCli [r] (Return tt) ≫= (fun _ => @sys_exit A code)) =
  Raised (SystemExit code).
Proof. reflexivity. Qed.

Lemma filter_twice {A : Type} (p : A -> bool) (l : list A) :
  List.filter p (List.filter p l) = List.filter p l.
Proof.
  induction l as [|x l IH]; simpl; [reflexivity|].
  destruct (p x) eqn:E; simpl; rewrite ?E, IH; reflexivity.
Qed.

Lemma some_stdout (l : list out_file) :
  forallb (fun o => negb (bool_decide (o = Stdout))) l = false -> In Stdout l.
Proof.
  induction l as [|o l IH]; simpl; [discriminate|].
  intros H. apply andb_false_iff in H as [H|H].
  - apply negb_false_iff, bool_decide_eq_true_1 in H. left. exact H.
  - right. apply IH. exact H.
Qed.

Lemma no_stdout (l : list out_file) :
  ~ In Stdout l -> forallb (fun o => negb (bool_decide (o = Stdout))) l = true.
Proof.
  intros H. destruct (forallb _ l) eqn:E; [reflexivity|].
  exfalso. apply H, some_stdout, E.
Qed.

Lemma output_setup_nonempty (default_format : string)
    (given_formats : option (list string)) (given_files : option (list out_file))
    (msg_template : option string) (fmts : list string) (files : list out_file) :
  ending (output_setup py_str default_format given_formats given_files msg_template)
    = Return (fmts, files) ->
  fmts <> [] /\ files <> [].
Proof.
  unfold output_setup.
  set (formats0 := match given_formats with
                   | None | Some [] => [default_format]
                   | Some l => l
                   end).
  set (files0 := match given_files with
                 | None | Some [] => [Stdout]
                 | Some l => l
                 end).
  assert (HF : formats0 <> []).
  { subst formats0. destruct given_formats as [[|x l]|]; discriminate. }
  assert (HO : files0 <> []).
  { subst files0. destruct given_files as [[|x l]|]; discriminate. }
  destruct (existsb _ formats0 && forallb _ files0); cbv beta iota;
    (match goal with
     | |- context [Nat.eqb ?x ?y] => destruct (Nat.eqb x y)
     end; cbn [negb]; [|intros H; discriminate H]);
    (match goal with
     | |- context [negb (bool_decide ?P) && ?b] => destruct (negb (bool_decide P) && b)
     end; [intros H; discriminate H|]);
    cbn [ending mret cli_ret]; intros [= <- <-]; split; try assumption;
    intros E; apply app_eq_nil in E as [_ E]; discriminate.
Qed.

(** X11. When the output set-up succeeds, there is one output file for each
    format and at least one of each; the "screen" format is present only if
    [sys.stdout] is among the files; a message template is present only if
    "custom" is among the formats; the formats other than "screen" are the
    given ones (or the default one) in their order, and the files are the
    given ones (or [sys.stdout] alone), with at most [sys.stdout] added at
    the end. *)
Theorem output_setup_success (default_format : string)
    (given_formats : option (list string)) (given_files : option (list out_file))
    (msg_template : option string) (fmts : list string) (files : list out_file) :
  ending (output_setup py_str default_format given_formats given_files msg_template)
    = Return (fmts, files) ->
  let formats0 := match given_formats with
                  | None | Some [] => [default_format]
                  | Some l => l
                  end in
  let files0 := match given_files with
                | None | Some [] => [Stdout]
                | Some l => l
                end in
  length fmts = length files /\ fmts <> [] /\ files <> [] /\
  (In "screen" fmts -> In Stdout files) /\
  (In "custom" fmts \/ msg_template = None) /\
  List.filter (fun f => negb (String.eqb f "screen")) fmts =
    List.filter (fun f => negb (String.eqb f "screen")) formats0 /\
  (files = files0 \/ files = files0 ++ [Stdout]).
Proof.
  intros H formats0 files0. unfold output_setup in H.
  fold formats0 in H. fold files0 in H.
  assert (HF : formats0 <> []).
  { subst formats0. destruct given_formats as [[|x l]|]; discriminate. }
  assert (HO : files0 <> []).
  { subst files0. destruct given_files as [[|x l]|]; discriminate. }
  destruct (existsb (fun f => String.eqb f "screen") formats0
            && forallb (fun o => negb (bool_decide (o = Stdout))) files0) eqn:C;
    cbv beta iota in H.
  - set (F := List.filter (fun f => negb (String.eqb f "screen")) formats0 ++ ["screen"]) in *.
    set (O := files0 ++ [Stdout]) in *.
    destruct (negb (Nat.eqb (length F) (length O))) eqn:L;
      [change (@Raised (list string * list out_file) (SystemExit 2) = Return (fmts, files)) in H;
       discriminate|].
    destruct (negb (bool_decide ("custom" ∈ F)) && bool_decide (is_Some msg_template))
      eqn:M; [simpl in H; discriminate|].
    simpl in H. injection H as <- <-.
    apply negb_false_iff, Nat.eqb_eq in L.
    split; [exact L|]. split; [subst F; intros E; apply app_eq_nil in E as [_ E]; discriminate|].
    split; [subst O; intros E; apply app_eq_nil in E as [_ E]; discriminate|].
    split; [intros _; subst O; apply in_or_app; right; left; reflexivity|].
    split.
    { apply andb_false_iff in M as [M|M].
      - apply negb_false_iff, bool_decide_eq_true_1 in M. left.
        apply list_elem_of_In. exact M.
      - apply bool_decide_eq_false_1 in M. right.
        destruct msg_template; [exfalso; apply M; eauto|reflexivity]. }
    split; [|right; reflexivity].
    subst F. rewrite List.filter_app. simpl. rewrite app_nil_r.
    apply filter_twice.
  - destruct (negb (Nat.eqb (length formats0) (length files0))) eqn:L;
      [change (@Raised (list string * list out_file) (SystemExit 2) = Return (fmts, files)) in H;
       discriminate|].
    destruct (negb (bool_decide ("custom" ∈ formats0)) && bool_decide (is_Some msg_template))
      eqn:M; [simpl in H; discriminate|].
    simpl in H. injection H as <- <-.
    apply negb_false_iff, Nat.eqb_eq in L.
    split; [exact L|]. split; [exact HF|]. split; [exact HO|].
    split.
    { intros Hs. apply andb_false_iff in C as [C|C].
      - assert (existsb (fun f => String.eqb f "screen") formats0 = true).
        { apply existsb_exists. exists "screen". split; [exact Hs|reflexivity]. }
        congruence.
      - apply some_stdout. exact C. }
    split; [|split; [reflexivity|left; reflexivity]].
    apply andb_false_iff in M as [M|M].
    + apply negb_false_iff, bool_decide_eq_true_1 in M. left.
      apply list_elem_of_In. exact M.
    + apply bool_decide_eq_false_1 in M. right.
      destruct msg_template; [exfalso; apply M; eauto|reflexivity].
Qed.


Lemma has_screen (l : list string) :
  In "screen" l -> existsb (fun f => String.eqb f "screen") l = true.
Proof. intros H. apply existsb_exists. exists "screen". split; [exact H|reflexivity]. Qed.

(** X12. When "screen" is among the formats (given, or the default on a
    terminal) and [sys.stdout] is not among the given files, "screen" is
    moved behind the other formats and [sys.stdout] behind the files; the
    set-up then exits with status 2 unless there are exactly as many other
    formats as given files.  So "screen" alone with an output file, and an
    output file without a format on a terminal, are refused. *)
Theorem output_setup_screen_without_stdout (default_format : string)
    (given_formats : option (list string)) (files : list out_file)
    (msg_template : option string) :
  let formats0 := match given_formats with
                  | None | Some [] => [default_format]
                  | Some l => l
                  end in
  let others := List.filter (fun f => negb (String.eqb f "screen")) formats0 in
  files <> [] -> ~ In Stdout files -> In "screen" formats0 ->
  (length others <> length files ->
   ending (output_setup py_str default_format given_formats (Some files) msg_template)
   = Raised (SystemExit 2)) /\
  (length others = length files ->
   In "custom" others \/ msg_template = None ->
   output_setup py_str default_format given_formats (Some files) msg_template
   = mret (others ++ ["screen"], files ++ [Stdout])) /\
  (others = [] ->
   ending (output_setup py_str default_format given_formats (Some files) msg_template)
   = Raised (SystemExit 2)).
Proof.
  intros formats0 others Hne Hno Hs.
  assert (Hcond : existsb (fun f => String.eqb f "screen") formats0
                  && forallb (fun o => negb (bool_decide (o = Stdout))) files = true).
  { rewrite (has_screen formats0 Hs), (no_stdout files Hno). reflexivity. }
  assert (Hexit : length others <> length files ->
    ending (output_setup py_str default_format given_formats (Some files) msg_template)
    = Raised (SystemExit 2)).
  { intros Hl. unfold output_setup. fold formats0.
    destruct files as [|o files']; [contradiction|].
    rewrite Hcond. cbv beta iota. fold others.
    rewrite !length_app.
    match goal with
    | |- context [Nat.eqb ?x ?y] => destruct (Nat.eqb_spec x y) as [E|E]
    end; [exfalso; apply Hl; simpl in *; lia|]. reflexivity. }
  split; [exact Hexit|]. split.
  - intros Hl Hc. unfold output_setup. fold formats0.
    destruct files as [|o files']; [contradiction|].
    rewrite Hcond. cbv beta iota. fold others.
    rewrite !length_app.
    match goal with
    | |- context [Nat.eqb ?x ?y] => destruct (Nat.eqb_spec x y) as [E|E]
    end; [|exfalso; apply E; simpl in *; lia].
    cbn [negb].
    assert (M : negb (bool_decide ("custom" ∈ others ++ ["screen"]))
                && bool_decide (is_Some msg_template) = false).
    { destruct Hc as [Hc| ->].
      - rewrite bool_decide_eq_true_2; [reflexivity|].
        apply list_elem_of_In, in_or_app. left. exact Hc.
      - rewrite (bool_decide_eq_false_2 (is_Some None)); [apply andb_false_r|].
        intros [? [=]]. }
    rewrite M. reflexivity.
  - intros E. apply Hexit. rewrite E. destruct files; [contradiction|discriminate].
Qed.

(** X13. The entries [format] and [output] of a [.bandit] file are never
    used: after a successful output set-up both lists are not empty, and
    reading the ini options keeps them. *)
Theorem merge_ini_keeps_outputs (default_format : string)
    (given_formats : option (list string)) (given_files : option (list out_file))
    (msg_template : option string) (fmts : list string) (files : list out_file)
    (args args' : Args) (ini : option (gmap string string)) :
  ending (output_setup py_str default_format given_formats given_files msg_template)
    = Return (fmts, files) ->
  output_format args = OStrs fmts ->
  output_file args = OFiles files ->
  ending (merge_ini args ini) = Return args' ->
  output_format args' = OStrs fmts /\ output_file args' = OFiles files.
Proof.
  intros Hs Hf Ho Hm.
  destruct (output_setup_nonempty _ _ _ _ _ _ Hs) as [Hnf Hno].
  destruct (ini_given ini) eqn:G.
  - destruct ini as [d|]; [|discriminate]. simpl in G.
    apply negb_true_iff, bool_decide_eq_false_1 in G.
    rewrite (merge_ini_ending args d G) in Hm. injection Hm as <-. simpl.
    rewrite Hf, Ho. split; apply option_source_truthy; simpl;
      apply negb_true_iff, bool_decide_eq_false_2; assumption.
  - rewrite (merge_ini_absent args ini G) in Hm. injection Hm as <-. auto.
Qed.

(** *** Looking for a [.bandit] file *)



Lemma cli_eta {A : Type} (c : cli A) : mkCli (logged c) (ending c) = c.
Proof. destruct c; reflexivity. Qed.


(** X15. With an [--ini] path the file system is not walked: the result is
    that of parsing the given path, whatever the targets and the tree. *)
Theorem get_options_from_ini_explicit (ini_path : optval) (target target' : list string)
    (walk' : string -> list (string * list string * list string)) :
  truth ini_path = true ->
  _get_options_from_ini os_walk parse_ini_file ini_path target = parse_ini_file ini_path /\
  _get_options_from_ini os_walk parse_ini_file ini_path target =
  _get_options_from_ini walk' parse_ini_file ini_path target'.
Proof.
  intros H.
  assert (E : forall w t, _get_options_from_ini w parse_ini_file ini_path t
                          = parse_ini_file ini_path).
  { intros w t. unfold _get_options_from_ini. rewrite H.
    unfold mbind, cli_bind, mret, cli_ret. simpl. rewrite H.
    destruct (parse_ini_file ini_path) as [l [a|e]]; reflexivity. }
  split; [apply E|]. rewrite !E. reflexivity.
Qed.

(** X16. A target that is named twice and holds a [.bandit] file counts
    twice: the run stops with exit status 2 as for several [.bandit]
    files. *)
Theorem get_options_from_ini_repeated_target (ini_path : optval) (t : string)
    (l1 l2 l3 : list string) :
  truth ini_path = false ->
  found_below os_walk t <> [] ->
  ending (_get_options_from_ini os_walk parse_ini_file ini_path
            (l1 ++ t :: l2 ++ t :: l3)) = Raised (SystemExit 2).
Proof.
  intros Hp Hf. unfold _get_options_from_ini. rewrite Hp.
  assert (Hl : 1 < length (flat_map (found_below os_walk) (l1 ++ t :: l2 ++ t :: l3))).
  { rewrite flat_map_app. simpl. rewrite !length_app, flat_map_app. simpl.
    rewrite !length_app. destruct (found_below os_walk t); [contradiction|].
    simpl. lia. }
  apply Nat.ltb_lt in Hl. rewrite Hl. reflexivity.
Qed.

(** *** The profile *)

Lemma try_ending {A : Type} (body : cli A) (handler : cli_exn -> cli A) :
  ending (try_profile_errors body handler) =
  match ending body with
  | Raised (ProfileNotFound _ _ as e) | Raised (ValueError _ as e) => ending (handler e)
  | other => other
  end.
Proof.
  unfold try_profile_errors. destruct (ending body) as [a|[]] eqn:E; simpl; congruence.
Qed.

Lemma handler_ending {A : Type} (e : cli_exn) :
  ending (log_exn ERROR e ≫= (fun _ => @sys_exit A 2)) = Raised (SystemExit 2).
Proof. reflexivity. Qed.

(** X17. Without a profile name the profile is built from the configuration
    and the command line together: its ["include"] set holds the tests of
    the configuration and the ids of [-t], its ["exclude"] set the skips of
    the configuration and the ids of [-s], and it has no other entry.  The
    ids of the command line are added to those of the configuration, they
    do not replace them.  The profile is returned when [validate_profile]
    accepts it; a [ValueError] of the validation ends in exit status 2. *)
Theorem main_profile_default (b_conf : BanditConfig) (args : Args)
    (added removed : list string) :
  truth (profile_name args) = false ->
  ending (split_ids (tests args)) = Return added ->
  ending (split_ids (skips args)) = Return removed ->
  let p : profile :=
    <["exclude" := list_to_set (default [] (option_skips b_conf)) ∪ list_to_set removed]>
      (<["include" := list_to_set (default [] (option_tests b_conf)) ∪ list_to_set added]>
         ∅) in
  ending (main_profile set_iter validate_profile b_conf args) =
  match ending (validate_profile p) with
  | Return _ => Return p
  | Raised (ProfileNotFound _ _) | Raised (ValueError _) => Raised (SystemExit 2)
  | Raised e => Raised e
  end.
Proof.
  intros Hn Ha Hr p. unfold main_profile. rewrite try_ending.
  unfold _get_profile. rewrite Hn.
  set (i0 := list_to_set (default [] (option_tests b_conf)) : gset string).
  set (e0 := list_to_set (default [] (option_skips b_conf)) : gset string).
  set (p0 := <["exclude":=e0]> (<["include":=i0]> ∅) : profile).
  assert (H1 : p0 !! "include" = Some i0).
  { subst p0. rewrite (lookup_insert_ne _ "exclude" "include") by (intros ?; discriminate).
    apply lookup_insert_eq. }
  assert (H2 : p0 !! "exclude" = Some e0) by apply lookup_insert_eq.
  assert (H3 : forall x, <["include" := x]> p0 !! "exclude" = Some e0).
  { intros x. rewrite (lookup_insert_ne _ "include" "exclude") by (intros ?; discriminate).
    exact H2. }
  rewrite bind_ending. cbn [ending mret cli_ret].
  rewrite bind_ending.
  assert (Hlog : exists l, _log_info set_iter args p0 = mkCli l (Return tt)).
  { unfold _log_info, profile_item. rewrite H1, H2. eexists. reflexivity. }
  destruct Hlog as [l ->]. cbn [ending].
  rewrite bind_ending. unfold profile_item at 1. rewrite H1.
  cbn [ending mret cli_ret].
  rewrite bind_ending, Ha.
  rewrite bind_ending. unfold profile_item at 1. rewrite H3.
  cbn [ending mret cli_ret].
  rewrite bind_ending, Hr.
  assert (Hp : <["exclude" := e0 ∪ list_to_set removed]>
                 (<["include" := i0 ∪ list_to_set added]> p0) = p).
  { subst p p0. rewrite (insert_insert_ne _ "include" "exclude") by (intros ?; discriminate).
    rewrite insert_insert_eq. rewrite insert_insert_eq. reflexivity. }
  rewrite Hp, bind_ending.
  destruct (ending (validate_profile p)) as [[]|[]]; reflexivity.
Qed.

(** X18. With a profile name, the profile of that name in the configuration
    is used.  When there is none, or the configuration has no profiles at
    all, the exception is logged as one error record and the exit status is
    2; the tests and skips of the configuration are no fallback.  When the
    profile found has no ["include"] entry, [KeyError] is raised and is not
    turned into an exit status. *)
Theorem main_profile_named (b_conf : BanditConfig) (args : Args) (name : string) :
  profile_name args = OVal (PyStr name) ->
  name <> "" ->
  (default ∅ (option_profiles b_conf) !! name = None ->
   main_profile set_iter validate_profile b_conf args =
   mkCli [mkLog ERROR (LExn (ProfileNotFound (config_file args) (OVal (PyStr name)))) []]
         (Raised (SystemExit 2))) /\
  (forall p, default ∅ (option_profiles b_conf) !! name = Some p ->
     p !! "include" = None ->
     ending (main_profile set_iter validate_profile b_conf args) =
     Raised (PyError (KeyError "include"))).
Proof.
  intros Hn Hne.
  assert (Ht : truth (OVal (PyStr name)) = true).
  { simpl. destruct (String.eqb_spec name ""); [contradiction|reflexivity]. }
  split.
  - intros Hl. unfold main_profile, _get_profile. rewrite Hn, Ht, Hl. reflexivity.
  - intros p Hl Hi. unfold main_profile. rewrite try_ending.
    unfold _get_profile. rewrite Hn, Ht, Hl.
    rewrite bind_ending. cbn [ending log mbind cli_bind mret cli_ret].
    rewrite bind_ending. unfold _log_info, profile_item. rewrite Hi. reflexivity.
Qed.

(** *** Targets *)

Lemma str_split_nonempty (sep : ascii) (s : string) : str_split sep s <> [].
Proof.
  destruct s as [|c s]; simpl; [discriminate|].
  destruct (Ascii.eqb c sep); [discriminate|].
  destruct (str_split sep s); discriminate.
Qed.

Lemma str_join_split (sep : ascii) (s : string) :
  str_join (String sep "") (str_split sep s) = s.
Proof.
  induction s as [|c s IH]; [reflexivity|].
  simpl str_split. destruct (Ascii.eqb_spec c sep) as [->|Hc].
  - destruct (str_split sep s) as [|h t] eqn:E;
      [exfalso; exact (str_split_nonempty sep s E)|].
    change (str_join (String sep "") ("" :: h :: t))
      with (String sep (str_join (String sep "") (h :: t))).
    rewrite IH. reflexivity.
  - destruct (str_split sep s) as [|h t] eqn:E;
      [exfalso; exact (str_split_nonempty sep s E)|].
    destruct t as [|h' t]; simpl in *; rewrite <- IH; reflexivity.
Qed.

Lemma ini_targets_truth (d : gmap string string) :
  truth (ini_targets_of d) = truth (ini_get d "targets").
Proof.
  unfold ini_targets_of. destruct (truth (ini_get d "targets")) eqn:E; [|exact E].
  unfold ini_get in *. destruct (d !! "targets") as [s|]; [|discriminate].
  simpl. apply negb_true_iff, bool_decide_eq_false_2, str_split_nonempty.
Qed.

(** X19. Targets from the [.bandit] file: when the command line names no
    target and the file has a [targets] entry that is not empty, the entry
    split at its commas becomes the list of targets.  Nothing is lost in
    the split (joined with commas the targets give the entry back), the
    list is never empty, and the run goes on, also for an entry such as
    "," whose targets are empty strings. *)
Theorem merge_ini_targets (args : Args) (ini : gmap string string) (entry : string) :
  truth (targets args) = false ->
  ini !! "targets" = Some entry ->
  entry <> "" ->
  exists args',
    ending (merge_ini args (Some ini)) = Return args' /\
    targets args' = OStrs (str_split "," entry) /\
    str_join "," (str_split "," entry) = entry /\
    str_split "," entry <> [] /\
    ending (require_targets args') = Return tt.
Proof.
  intros Ht Hi He.
  assert (Hne : ini <> ∅).
  { intros ->. rewrite lookup_empty in Hi. discriminate. }
  assert (Htg : ini_targets_of ini = OStrs (str_split "," entry)).
  { unfold ini_targets_of, ini_get. rewrite Hi. simpl.
    destruct (String.eqb_spec entry ""); [contradiction|reflexivity]. }
  eexists. split; [apply (merge_ini_ending args ini Hne)|].
  cbn [targets]. unfold option_source at 1. rewrite Ht, Htg.
  assert (Hl : truth (OStrs (str_split "," entry)) = true).
  { simpl. apply negb_true_iff, bool_decide_eq_false_2, str_split_nonempty. }
  rewrite Hl. split; [reflexivity|]. split; [apply str_join_split|].
  split; [apply str_split_nonempty|].
  unfold require_targets. cbn [targets]. unfold option_source at 1.
  rewrite Ht, Hl, Hl. reflexivity.
Qed.

(** X20. After the ini options are read the run goes on exactly when the
    command line names a target or the [.bandit] file has a [targets] entry
    that is not empty; otherwise it ends with exit status 2. *)
Theorem require_targets_after_merge (args : Args) (ini : option (gmap string string)) :
  ending (merge_ini args ini ≫= require_targets) =
  if truth (targets args)
     || (ini_given ini && truth (ini_get (default ∅ ini) "targets"))
  then Return tt
  else Raised (SystemExit 2).
Proof.
  rewrite bind_ending. destruct (ini_given ini) eqn:G.
  - destruct ini as [d|]; [|discriminate]. simpl in G.
    apply negb_true_iff, bool_decide_eq_false_1 in G.
    change (default ∅ (Some d)) with d.
    rewrite (merge_ini_ending args d G). unfold require_targets. cbn [targets].
    unfold option_source. rewrite ini_targets_truth.
    destruct (truth (targets args)) eqn:Ht.
    + rewrite Ht. reflexivity.
    + destruct (truth (ini_get d "targets")) eqn:Hi.
      * rewrite ini_targets_truth, Hi. reflexivity.
      * reflexivity.
  - rewrite (merge_ini_absent args ini G). cbn [ending mret cli_ret].
    unfold require_targets. rewrite orb_false_r.
    destruct (truth (targets args)); reflexivity.
Qed.

End Facts.

(** *** The properties at sample inputs *)

Lemma output_setup_success_witness :
  ending (output_setup (fun _ => "") "txt" (Some ["screen"; "json"])
            (Some [OpenFile "out.json"]) None)
    = Return (["json"; "screen"], [OpenFile "out.json"; Stdout]) /\
  length ["json"; "screen"] = length [OpenFile "out.json"; Stdout] /\
  (In "screen" ["json"; "screen"] -> In Stdout [OpenFile "out.json"; Stdout]).
Proof.
  split; [reflexivity|].
  destruct (output_setup_success (fun _ => "") "txt" (Some ["screen"; "json"])
              (Some [OpenFile "out.json"]) None ["json"; "screen"]
              [OpenFile "out.json"; Stdout] eq_refl)
    as (H1 & _ & _ & H2 & _).
  split; [exact H1|exact H2].
Defined.

Lemma output_setup_screen_without_stdout_witness :
  ending (output_setup (fun _ => "") "screen" None (Some [OpenFile "out.txt"]) None)
  = Raised (SystemExit 2).
Proof.
  apply (output_setup_screen_without_stdout (fun _ => "") "screen" None
           [OpenFile "out.txt"] None).
  - discriminate.
  - intros [H|[]]. discriminate.
  - left. reflexivity.
  - reflexivity.
Defined.

Lemma merge_ini_keeps_outputs_witness :
  exists args',
    ending (merge_ini bare_args (Some {[ "format" := "json"; "output" := "report" ]}))
      = Return args' /\
    output_format args' = OStrs ["txt"] /\ output_file args' = OFiles [Stdout].
Proof.
  eexists. split; [vm_compute; reflexivity|].
  apply (merge_ini_keeps_outputs (fun _ => "") "txt" None None None ["txt"] [Stdout]
           bare_args _ (Some {[ "format" := "json"; "output" := "report" ]}));
    vm_compute; reflexivity.
Defined.


Lemma get_options_from_ini_explicit_witness :
  _get_options_from_ini sample_walk sample_parse (OVal (PyStr "my.ini")) ["proj"] =
  sample_parse (OVal (PyStr "my.ini")).
Proof.
  apply (get_options_from_ini_explicit sample_walk sample_parse (OVal (PyStr "my.ini"))
           ["proj"] [] (fun _ => [])).
  reflexivity.
Defined.

Lemma get_options_from_ini_repeated_target_witness :
  ending (_get_options_from_ini sample_walk sample_parse ONone ["proj"; "proj"]) =
  Raised (SystemExit 2).
Proof.
  apply (get_options_from_ini_repeated_target sample_walk sample_parse ONone "proj"
           [] [] []).
  - reflexivity.
  - discriminate.
Defined.

Lemma main_profile_default_witness :
  ending (main_profile elements (fun _ => mret tt) sample_config
            (args_tests_profile ONone)) =
  Return (<["exclude" := list_to_set ["B102"] ∪ list_to_set []]>
            (<["include" := list_to_set ["B301"; "B101"] ∪ list_to_set ["B101"; "B102"]]>
               ∅)).
Proof.
  exact (main_profile_default elements (fun _ => mret tt) sample_config
           (args_tests_profile ONone) ["B101"; "B102"] [] eq_refl eq_refl eq_refl).
Defined.

Lemma main_profile_named_witness :
  ending (main_profile elements (fun _ => mret tt) sample_config
            (args_tests_profile (OVal (PyStr "missing")))) = Raised (SystemExit 2) /\
  ending (main_profile elements (fun _ => mret tt) sample_config
            (args_tests_profile (OVal (PyStr "legacy")))) =
  Raised (PyError (KeyError "include")).
Proof.
  split.
  - rewrite (proj1 (main_profile_named elements (fun _ => mret tt) sample_config
                      (args_tests_profile (OVal (PyStr "missing"))) "missing"
                      eq_refl ltac:(discriminate)) eq_refl).
    reflexivity.
  - apply (proj2 (main_profile_named elements (fun _ => mret tt) sample_config
                    (args_tests_profile (OVal (PyStr "legacy"))) "legacy"
                    eq_refl ltac:(discriminate)) {[ "exclude" := {[ "B102" ]} ]});
      reflexivity.
Defined.

Lemma merge_ini_targets_witness :
  exists args',
    ending (merge_ini bare_args (Some {[ "targets" := "a,b" ]})) = Return args' /\
    targets args' = OStrs ["a"; "b"].
Proof.
  assert (Hi : ({[ "targets" := "a,b" ]} : gmap string string) !! "targets"
               = Some "a,b") by (vm_compute; reflexivity).
  assert (He : "a,b" <> "") by discriminate.
  destruct (merge_ini_targets bare_args {[ "targets" := "a,b" ]} "a,b" eq_refl Hi He)
    as (args' & H1 & H2 & _).
  exists args'. split; [exact H1|exact H2].
Defined.

End CliFacts.
